(** * Console assistants: lookup, labeled-response parsing and fallback

    A shallow embedding of the three Python programs of the repository
    ([country_info_toolkit.py], [mood_handoff.py], [product_suggester.py])
    and the properties of their lookup / parse / fallback pipeline.

    Modelling conventions.
    - A Python [str] is a [string]: a sequence of 8-bit characters holding
      the UTF-8 encoding of the text.  Case mapping, the cased-letter test
      and the whitespace test follow CPython on the ASCII range; characters
      at or above 128 are carried unchanged and are neither cased nor
      whitespace.
    - A dict whose key set depends on the branch that built it is a
      [gmap string _] and subscripting it can raise [KeyError]; a dict
      literal with a fixed key set is a record.
    - Exceptions are the [Raise] outcome of the [outcome] monad.
    - Console output, [time.sleep], calls to the generative model and
      [random.choice] are recorded in a chronological trace threaded by the
      [io] monad; the replies of the model and of the random generator are
      supplied by oracles that may depend on the whole history. *)

From Stdlib Require Import Ascii DecimalString.
From stdpp Require Import base option list strings gmap.

Local Open Scope char_scope.
Local Open Scope stdpp_scope.

(** ** Exceptions and the two monads *)

Inductive exn :=
  | KeyError (key : string)
  | IndexError (msg : string)
  | Exception (msg : string).

Inductive outcome (A : Type) :=
  | Ok (a : A)
  | Raise (e : exn).
Arguments Ok {A} a.
Arguments Raise {A} e.

#[global] Instance outcome_ret : MRet outcome := fun A a => Ok a.
#[global] Instance outcome_bind : MBind outcome := fun A B f m =>
  match m with
  | Ok a => f a
  | Raise e => Raise e
  end.

Inductive event :=
  | Print (text : string)
  | Input (prompt : string)
  | Sleep (seconds : nat)
  | GenerateContent (prompt : string)
  | RandomChoice (population : list string).

Definition io (A : Type) : Type := list event -> outcome A * list event.

#[global] Instance io_ret : MRet io := fun A a t => (Ok a, t).
#[global] Instance io_bind : MBind io := fun A B f m t =>
  match m t with
  | (Ok a, t') => f a t'
  | (Raise e, t') => (Raise e, t')
  end.

Definition lift {A} (o : outcome A) : io A := fun t => (o, t).
Definition emit (e : event) : io unit := fun t => (Ok tt, t ++ [e]).
Definition print (text : string) : io unit := emit (Print text).
Definition sleep (seconds : nat) : io unit := emit (Sleep seconds).

(** [try: body  except Exception: handler] *)
Definition try_except {A} (body : io A) (handler : exn -> io A) : io A :=
  fun t =>
    match body t with
    | (Ok a, t') => (Ok a, t')
    | (Raise e, t') => handler e t'
    end.

(** [genai.GenerativeModel]: the reply to a prompt, or the exception the
    call raises, as a function of everything that happened before. *)
Record GenerativeModel := {
  reply : list event -> string -> outcome string
}.

(** [response = model.generate_content(prompt); response.text] *)
Definition generate_content (model : GenerativeModel) (prompt : string) : io string :=
  fun t => (reply model t prompt, t ++ [GenerateContent prompt]).

(** ** Python string and container primitives *)

Module Py.

Definition isspace (c : ascii) : bool :=
  let n := nat_of_ascii c in
  (Nat.leb 9 n && Nat.leb n 13) || (Nat.leb 28 n && Nat.leb n 32).

Definition isupper (c : ascii) : bool :=
  let n := nat_of_ascii c in Nat.leb 65 n && Nat.leb n 90.

Definition islower (c : ascii) : bool :=
  let n := nat_of_ascii c in Nat.leb 97 n && Nat.leb n 122.

Definition iscased (c : ascii) : bool := isupper c || islower c.

Definition tolower (c : ascii) : ascii :=
  if isupper c then ascii_of_nat (nat_of_ascii c + 32) else c.

Definition toupper (c : ascii) : ascii :=
  if islower c then ascii_of_nat (nat_of_ascii c - 32) else c.

(** [s.lower()] *)
Fixpoint lower (s : string) : string :=
  match s with
  | EmptyString => EmptyString
  | String c r => String (tolower c) (lower r)
  end.

(** [s.upper()] *)
Fixpoint upper (s : string) : string :=
  match s with
  | EmptyString => EmptyString
  | String c r => String (toupper c) (upper r)
  end.

(** [s.title()]: a cased character is upper-cased when the character
    before it is not cased, and lower-cased otherwise. *)
Fixpoint title_from (previous_is_cased : bool) (s : string) : string :=
  match s with
  | EmptyString => EmptyString
  | String c r =>
      String (if previous_is_cased then tolower c else toupper c)
             (title_from (iscased c) r)
  end.

Definition title (s : string) : string := title_from false s.

Fixpoint lstrip (s : string) : string :=
  match s with
  | EmptyString => EmptyString
  | String c r => if isspace c then lstrip r else s
  end.

Fixpoint rstrip (s : string) : string :=
  match s with
  | EmptyString => EmptyString
  | String c r =>
      match rstrip r with
      | EmptyString => if isspace c then EmptyString else String c EmptyString
      | r' => String c r'
      end
  end.

(** [s.strip()] *)
Definition strip (s : string) : string := rstrip (lstrip s).

(** [s.startswith(p)] *)
Fixpoint startswith (s p : string) {struct p} : bool :=
  match p with
  | EmptyString => true
  | String a p' =>
      match s with
      | EmptyString => false
      | String b s' => if Ascii.eqb a b then startswith s' p' else false
      end
  end.

(** [s.split(sep)] for a one-character separator. *)
Fixpoint split (s : string) (sep : ascii) : list string :=
  match s with
  | EmptyString => [EmptyString]
  | String c r =>
      if Ascii.eqb c sep then EmptyString :: split r sep
      else match split r sep with
           | h :: t => String c h :: t
           | [] => [String c EmptyString]
           end
  end.

(** [s.split(sep, 1)] for a one-character separator. *)
Fixpoint split1 (s : string) (sep : ascii) : list string :=
  match s with
  | EmptyString => [EmptyString]
  | String c r =>
      if Ascii.eqb c sep then [EmptyString; r]
      else match split1 r sep with
           | h :: t => String c h :: t
           | [] => [String c EmptyString]
           end
  end.

(** [s * n] *)
Fixpoint repeat (s : string) (n : nat) : string :=
  match n with
  | O => EmptyString
  | S k => s +:+ repeat s k
  end.

(** [l[i]] *)
Definition getitem {A} (l : list A) (i : nat) : outcome A :=
  match l !! i with
  | Some x => Ok x
  | None => Raise (IndexError "list index out of range")
  end.

(** [d[key]] *)
Definition subscript {V} (d : gmap string V) (key : string) : outcome V :=
  match d !! key with
  | Some v => Ok v
  | None => Raise (KeyError key)
  end.

(** [for x in l: state = body(x, state)] *)
Fixpoint for_in {A S} (l : list A) (state : S) (body : A -> S -> outcome S)
  : outcome S :=
  match l with
  | [] => Ok state
  | x :: rest =>
      match body x state with
      | Ok state' => for_in rest state' body
      | Raise e => Raise e
      end
  end.

(** [x in l] for a list of strings. *)
Definition contains (l : list string) (x : string) : bool :=
  existsb (String.eqb x) l.

(** [str(e)] for the exceptions of the model. *)
Definition str_exn (e : exn) : string :=
  match e with
  | KeyError key => "'" +:+ key +:+ "'"
  | IndexError msg => msg
  | Exception msg => msg
  end.

Definition nl : string := String "010" EmptyString.
Definition dquote : string := String "034" EmptyString.

(** [sep.join(l)] *)
Fixpoint join (sep : string) (l : list string) : string :=
  match l with
  | [] => EmptyString
  | x :: rest =>
      match rest with
      | [] => x
      | _ => x +:+ sep +:+ join sep rest
      end
  end.

(** The characters of a string, as iterating over it yields them. *)
Fixpoint chars (s : string) : list string :=
  match s with
  | EmptyString => []
  | String c r => String c EmptyString :: chars r
  end.

(** [s.replace(old, new)] for one-character [old] and [new]. *)
Fixpoint replace (s : string) (old new : ascii) : string :=
  match s with
  | EmptyString => EmptyString
  | String c r => String (if Ascii.eqb c old then new else c) (replace r old new)
  end.

(** [str(n)] for a non-negative integer. *)
Definition str_nat (n : nat) : string := NilEmpty.string_of_uint (Nat.to_uint n).

(** [s.count(c)] for a one-character [c]. *)
Fixpoint count (s : string) (c : ascii) : nat :=
  match s with
  | EmptyString => 0
  | String a r => (if Ascii.eqb a c then 1 else 0) + count r c
  end.

Definition hex_digit (n : nat) : ascii :=
  nth n (String.list_ascii_of_string "0123456789abcdef") "0"%char.

(** One character of [repr(s)] inside the quotes. *)
Definition repr_char (quote c : ascii) : string :=
  let n := nat_of_ascii c in
  if Ascii.eqb c quote || Ascii.eqb c "\"%char then String "\" (String c EmptyString)
  else if Ascii.eqb c "009" then "\t"
  else if Ascii.eqb c "010" then "\n"
  else if Ascii.eqb c "013" then "\r"
  else if Nat.ltb n 32 || Nat.eqb n 127 then
    "\x" +:+ String (hex_digit (n / 16)) (String (hex_digit (n `mod` 16)) EmptyString)
  else String c EmptyString.

Fixpoint repr_chars (quote : ascii) (s : string) : string :=
  match s with
  | EmptyString => EmptyString
  | String c r => repr_char quote c +:+ repr_chars quote r
  end.

(** [repr(s)]: single quotes, unless the string has a single quote and no
    double quote. *)
Definition repr_str (s : string) : string :=
  let quote : ascii :=
    if Nat.ltb 0 (count s "'") && Nat.eqb (count s "034") 0 then "034"%char else "'"%char in
  String quote (repr_chars quote s) +:+ String quote EmptyString.

(** [repr(l)] for a list of strings. *)
Definition repr_list (l : list string) : string :=
  "[" +:+ join ", " (map repr_str l) +:+ "]".

End Py.

(** ** country_info_toolkit.py *)

Module CountryCapitalTool.

Record t := {
  tool_name : string;
  description : string;
  country_capitals : gmap string string
}.

Definition init : t := {|
  tool_name := "get_capital";
  description := "Returns the capital city of a given country";
  country_capitals := list_to_map [
      ("united states", "Washington D.C.");
      ("usa", "Washington D.C.");
      ("united kingdom", "London");
      ("uk", "London");
      ("canada", "Ottawa");
      ("australia", "Canberra");
      ("india", "New Delhi");
      ("germany", "Berlin");
      ("france", "Paris");
      ("japan", "Tokyo");
      ("china", "Beijing");
      ("brazil", "Brasília");
      ("russia", "Moscow");
      ("mexico", "Mexico City");
      ("spain", "Madrid");
      ("italy", "Rome");
      ("south africa", "Pretoria");
      ("egypt", "Cairo");
      ("argentina", "Buenos Aires");
      ("south korea", "Seoul")
    ]
|}.

Definition execute (self : t) (country_name : string) : gmap string string :=
  let country_lower := Py.lower (Py.strip country_name) in
  match country_capitals self !! country_lower with
  | Some capital =>
      {[ "status" := "success";
         "capital" := capital;
         "country" := Py.title country_name ]}
  | None =>
      {[ "status" := "error";
         "message" := "Capital information not available for " +:+ country_name ]}
  end.

End CountryCapitalTool.

Module CountryLanguageTool.

Record t := {
  tool_name : string;
  description : string;
  country_languages : gmap string string
}.

Definition init : t := {|
  tool_name := "get_language";
  description := "Returns the official language(s) of a given country";
  country_languages := list_to_map [
      ("united states", "English");
      ("usa", "English");
      ("united kingdom", "English");
      ("uk", "English");
      ("canada", "English, French");
      ("australia", "English");
      ("india", "Hindi, English (and 21 other official languages)");
      ("germany", "German");
      ("france", "French");
      ("japan", "Japanese");
      ("china", "Mandarin Chinese");
      ("brazil", "Portuguese");
      ("russia", "Russian");
      ("mexico", "Spanish");
      ("spain", "Spanish");
      ("italy", "Italian");
      ("south africa", "11 official languages including Zulu, Xhosa, Afrikaans, English");
      ("egypt", "Arabic");
      ("argentina", "Spanish");
      ("south korea", "Korean")
    ]
|}.

Definition execute (self : t) (country_name : string) : gmap string string :=
  let country_lower := Py.lower (Py.strip country_name) in
  match country_languages self !! country_lower with
  | Some language =>
      {[ "status" := "success";
         "language" := language;
         "country" := Py.title country_name ]}
  | None =>
      {[ "status" := "error";
         "message" := "Language information not available for " +:+ country_name ]}
  end.

End CountryLanguageTool.

Module CountryPopulationTool.

Record t := {
  tool_name : string;
  description : string;
  country_populations : gmap string string
}.

Definition init : t := {|
  tool_name := "get_population";
  description := "Returns the approximate population of a given country";
  country_populations := list_to_map [
      ("united states", "341 million");
      ("usa", "341 million");
      ("united kingdom", "67 million");
      ("uk", "67 million");
      ("canada", "39 million");
      ("australia", "26 million");
      ("india", "1.43 billion");
      ("germany", "83 million");
      ("france", "68 million");
      ("japan", "125 million");
      ("china", "1.42 billion");
      ("brazil", "216 million");
      ("russia", "144 million");
      ("mexico", "128 million");
      ("spain", "48 million");
      ("italy", "59 million");
      ("south africa", "60 million");
      ("egypt", "110 million");
      ("argentina", "46 million");
      ("south korea", "52 million")
    ]
|}.

Definition execute (self : t) (country_name : string) : gmap string string :=
  let country_lower := Py.lower (Py.strip country_name) in
  match country_populations self !! country_lower with
  | Some population =>
      {[ "status" := "success";
         "population" := population;
         "country" := Py.title country_name ]}
  | None =>
      {[ "status" := "error";
         "message" := "Population information not available for " +:+ country_name ]}
  end.

End CountryPopulationTool.

Module CountryInfoOrchestrator.

Record t := {
  model : GenerativeModel;
  capital_tool : CountryCapitalTool.t;
  language_tool : CountryLanguageTool.t;
  population_tool : CountryPopulationTool.t
}.

(** [__init__], once the API key has been found. *)
Definition init (gemini : GenerativeModel) : t := {|
  model := gemini;
  capital_tool := CountryCapitalTool.init;
  language_tool := CountryLanguageTool.init;
  population_tool := CountryPopulationTool.init
|}.

Record validation := {
  is_valid : bool;
  exists_in_capitals : bool;
  exists_in_languages : bool;
  exists_in_populations : bool
}.

Record tool_results := {
  country : string;
  capital : gmap string string;
  language : gmap string string;
  population : gmap string string;
  all_successful : bool
}.

Definition set_all_successful (b : bool) (r : tool_results) : tool_results :=
  {| country := country r; capital := capital r; language := language r;
     population := population r; all_successful := b |}.

(** The dict returned by [process_country_query]: its keys depend on the
    value under ["status"]. *)
Inductive query_result :=
  | QueryError (message suggestions : string)
  | QuerySuccess (country : string) (results : tool_results)
                 (report : string) (validated : validation).

Definition status (r : query_result) : string :=
  match r with
  | QueryError _ _ => "error"
  | QuerySuccess _ _ _ _ => "success"
  end.

(** [k in d] *)
Definition has_key (d : gmap string string) (k : string) : bool :=
  bool_decide (is_Some (d !! k)).

Definition validate_country (self : t) (country_name : string) : validation :=
  let country_lower := Py.lower (Py.strip country_name) in
  let in_capitals :=
    has_key (CountryCapitalTool.country_capitals (capital_tool self)) country_lower in
  let in_languages :=
    has_key (CountryLanguageTool.country_languages (language_tool self)) country_lower in
  let in_populations :=
    has_key (CountryPopulationTool.country_populations (population_tool self)) country_lower in
  {| is_valid := in_capitals || in_languages || in_populations;
     exists_in_capitals := in_capitals;
     exists_in_languages := in_languages;
     exists_in_populations := in_populations |}.

Definition execute_all_tools (self : t) (country_name : string)
  : outcome tool_results :=
  let results := {|
    country := Py.title country_name;
    capital := CountryCapitalTool.execute (capital_tool self) country_name;
    language := CountryLanguageTool.execute (language_tool self) country_name;
    population := CountryPopulationTool.execute (population_tool self) country_name;
    all_successful := true
  |} in
  Py.for_in [capital results; language results; population results] results
    (fun tool_result results =>
       tool_status ← Py.subscript tool_result "status";
       if String.eqb tool_status "error"
       then mret (set_all_successful false results)
       else mret results).

(** [d[field] if d['status'] == 'success' else 'Not available'] *)
Definition field_or_not_available (d : gmap string string) (field : string)
  : outcome string :=
  tool_status ← Py.subscript d "status";
  if String.eqb tool_status "success"
  then Py.subscript d field
  else mret "Not available".

Definition report_prompt (results : tool_results) : outcome string :=
  let country := country results in
  cap ← field_or_not_available (capital results) "capital";
  lang ← field_or_not_available (language results) "language";
  pop ← field_or_not_available (population results) "population";
  mret (Py.nl
    +:+ "        Create a comprehensive and engaging country information report for "
    +:+ country +:+ "." +:+ Py.nl
    +:+ "        " +:+ Py.nl
    +:+ "        Available information:" +:+ Py.nl
    +:+ "        - Capital: " +:+ cap +:+ Py.nl
    +:+ "        - Language: " +:+ lang +:+ Py.nl
    +:+ "        - Population: " +:+ pop +:+ Py.nl
    +:+ "        " +:+ Py.nl
    +:+ "        Format the response as a beautiful, informative report with emojis." +:+ Py.nl
    +:+ "        Include:" +:+ Py.nl
    +:+ "        1. A welcoming introduction" +:+ Py.nl
    +:+ "        2. The available information in a structured way" +:+ Py.nl
    +:+ "        3. Any missing information with a polite note" +:+ Py.nl
    +:+ "        4. A friendly conclusion" +:+ Py.nl
    +:+ "        " +:+ Py.nl
    +:+ "        Keep it professional yet engaging." +:+ Py.nl
    +:+ "        ").

Definition report_header (country : string) : string :=
  Py.nl
  +:+ "        🌍 COUNTRY INFORMATION: " +:+ country +:+ Py.nl
  +:+ "        " +:+ Py.repeat "=" 50 +:+ Py.nl
  +:+ "        " +:+ Py.nl
  +:+ "        ".

Definition report_footer : string :=
  Py.nl
  +:+ "        " +:+ Py.repeat "=" 50 +:+ Py.nl
  +:+ "        ℹ️  Note: This information is from our database. " +:+ Py.nl
  +:+ "        For the most current data, please refer to official sources." +:+ Py.nl
  +:+ "        ".

Definition _create_fallback_report (self : t) (results : tool_results)
  : outcome string :=
  let country := country results in
  let report := report_header country in
  capital_status ← Py.subscript (capital results) "status";
  report ←
    (if String.eqb capital_status "success"
     then v ← Py.subscript (capital results) "capital";
          mret (report +:+ "🏛️  Capital: " +:+ v +:+ Py.nl)
     else mret (report +:+ "❌ Capital: Information not available" +:+ Py.nl));
  language_status ← Py.subscript (language results) "status";
  report ←
    (if String.eqb language_status "success"
     then v ← Py.subscript (language results) "language";
          mret (report +:+ "🗣️  Language: " +:+ v +:+ Py.nl)
     else mret (report +:+ "❌ Language: Information not available" +:+ Py.nl));
  population_status ← Py.subscript (population results) "status";
  report ←
    (if String.eqb population_status "success"
     then v ← Py.subscript (population results) "population";
          mret (report +:+ "👥 Population: " +:+ v +:+ Py.nl)
     else mret (report +:+ "❌ Population: Information not available" +:+ Py.nl));
  mret (report +:+ report_footer).

Definition generate_complete_report (self : t) (results : tool_results)
  : io string :=
  prompt ← lift (report_prompt results);
  try_except
    (generate_content (model self) prompt)
    (fun e => lift (_create_fallback_report self results)).

Definition process_country_query (self : t) (country_name : string)
  : io query_result :=
  _ ← print ("🔍 Validating country: " +:+ country_name +:+ "...");
  _ ← sleep 1;
  let validation := validate_country self country_name in
  if negb (is_valid validation) then
    mret (QueryError
            ("Sorry, I don't have information about '" +:+ country_name
             +:+ "' in my database.")
            "Try countries like USA, India, Germany, Japan, Brazil, etc.")
  else
    _ ← print "🔄 Executing all information tools...";
    _ ← sleep 1;
    results ← lift (execute_all_tools self country_name);
    _ ← print "📊 Generating comprehensive report...";
    _ ← sleep 1;
    report ← generate_complete_report self results;
    mret (QuerySuccess (Py.title country_name) results report validation).

End CountryInfoOrchestrator.

(** ** The interactive loop

    [while True: try: user_input = input(...) ... except Exception: ...]
    run on the lines typed by the user.  One iteration either leaves the
    loop ([break]) or goes on to the next [input()]; the session is over
    when the loop is left, and waits for input when the typed lines are
    used up. *)

Inductive control := Break | Continue.
Inductive session := Ended | AwaitingInput.

Fixpoint while_true (body : string -> io control) (lines : list string)
  : io session :=
  match lines with
  | [] => mret AwaitingInput
  | line :: rest =>
      c ← body line;
      match c with
      | Break => mret Ended
      | Continue => while_true body rest
      end
  end.

Module CountryInfoBot.

Record t := { orchestrator : CountryInfoOrchestrator.t }.

Definition init (gemini : GenerativeModel) : t :=
  {| orchestrator := CountryInfoOrchestrator.init gemini |}.

Definition format_output (self : t)
  (results : CountryInfoOrchestrator.query_result) : string :=
  match results with
  | CountryInfoOrchestrator.QueryError message suggestions =>
      Py.nl
      +:+ "            ❌ SORRY, INFORMATION NOT AVAILABLE" +:+ Py.nl
      +:+ "            " +:+ Py.repeat "=" 50 +:+ Py.nl
      +:+ "            " +:+ message +:+ Py.nl
      +:+ "            💡 " +:+ suggestions +:+ Py.nl
      +:+ "            "
  | CountryInfoOrchestrator.QuerySuccess _ _ report _ =>
      Py.nl
      +:+ "        " +:+ report +:+ Py.nl
      +:+ "        "
  end.

(** One iteration of the loop of [run_interactive]; [line] is what
    [input()] returns. *)
Definition loop_body (self : t) (line : string) : io control :=
  try_except
    (_ ← emit (Input "🇺🇳 Which country would you like to know about? ");
     let user_input := Py.strip line in
     if Py.contains ["quit"; "exit"; "bye"; "stop"] (Py.lower user_input) then
       _ ← print (Py.nl +:+ "Thank you for using Country Info Bot! Goodbye! 👋");
       mret Break
     else if String.eqb user_input "" then
       _ ← print "Please enter a country name...";
       mret Continue
     else
       results ← CountryInfoOrchestrator.process_country_query
                   (orchestrator self) user_input;
       _ ← print (Py.nl +:+ format_output self results);
       _ ← print (Py.nl +:+ Py.repeat "=" 60);
       _ ← print "Would you like to know about another country?";
       mret Continue)
    (fun e =>
       _ ← print (Py.nl +:+ "I apologize, I encountered an error: " +:+ Py.str_exn e);
       _ ← print ("Please try again with a different country name." +:+ Py.nl);
       mret Continue).

Definition run_interactive (self : t) (lines : list string) : io session :=
  _ ← print (Py.repeat "=" 60);
  _ ← print "🌍 COUNTRY INFORMATION BOT";
  _ ← print (Py.repeat "=" 60);
  _ ← print "I can tell you about capitals, languages, and populations!";
  _ ← print "Available countries: USA, UK, Canada, India, Germany, France, Japan, China, Brazil, etc.";
  _ ← print ("Type 'quit' to exit at any time." +:+ Py.nl);
  while_true (loop_body self) lines.

End CountryInfoBot.

(** ** mood_handoff.py *)

(** The [random] module: the index drawn for a population of a given size,
    as a function of the history. *)
Record Random := {
  randbelow : list event -> nat -> nat
}.

(** [random.choice(seq)] *)
Definition choice (random : Random) (seq : list string) : io string :=
  fun t =>
    (match seq with
     | [] => Raise (IndexError "Cannot choose from an empty sequence")
     | _ => Py.getitem seq (randbelow random t (length seq) `mod` length seq)
     end,
     t ++ [RandomChoice seq]).

Module MoodAnalyzerAgent.

Record t := { model : GenerativeModel }.

(** The [for line in lines] loop of [_parse_mood_response], from the
    dict it starts with. *)
Definition parse_lines (lines : list string) (mood_data : gmap string string)
  : outcome (gmap string string) :=
  Py.for_in lines mood_data
    (fun line mood_data =>
       if Py.startswith line "MOOD:" then
         rest ← Py.getitem (Py.split1 line ":") 1;
         mret (<["mood" := Py.lower (Py.strip rest)]> mood_data)
       else if Py.startswith line "CONFIDENCE:" then
         rest ← Py.getitem (Py.split1 line ":") 1;
         mret (<["confidence" := Py.lower (Py.strip rest)]> mood_data)
       else mret mood_data).

Definition _parse_mood_response (self : t) (response_text : string)
  : outcome (gmap string string) :=
  let lines := Py.split (Py.strip response_text) "010" in
  let mood_data : gmap string string :=
    {[ "mood" := "neutral"; "confidence" := "medium" ]} in
  parse_lines lines mood_data.

Definition mood_prompt (user_message : string) : string :=
  Py.nl
  +:+ "        Analyze the mood of the following message and respond ONLY in this exact format:" +:+ Py.nl
  +:+ "        MOOD: [mood_type]" +:+ Py.nl
  +:+ "        CONFIDENCE: [high/medium/low]" +:+ Py.nl
  +:+ "        " +:+ Py.nl
  +:+ "        Available mood types: happy, sad, stressed, anxious, excited, angry, calm, neutral" +:+ Py.nl
  +:+ "        " +:+ Py.nl
  +:+ "        Message: " +:+ Py.dquote +:+ user_message +:+ Py.dquote +:+ Py.nl
  +:+ "        ".

Definition analyze_mood (self : t) (user_message : string)
  : io (gmap string string) :=
  let prompt := mood_prompt user_message in
  try_except
    (response ← generate_content (model self) prompt;
     lift (_parse_mood_response self response))
    (fun e =>
       _ ← print ("Error analyzing mood: " +:+ Py.str_exn e);
       mret ({[ "mood" := "neutral"; "confidence" := "medium" ]} : gmap string string)).

End MoodAnalyzerAgent.

Module ActivitySuggesterAgent.

Record t := {
  model : GenerativeModel;
  activity_templates : gmap string (list string)
}.

Definition init (gemini : GenerativeModel) : t := {|
  model := gemini;
  activity_templates := list_to_map [
      ("sad", [
        "Take a walk in nature 🌳";
        "Listen to uplifting music 🎵";
        "Write in a journal 📝";
        "Call a friend or loved one 📞";
        "Watch a favorite movie 🎬"
      ]);
      ("stressed", [
        "Practice deep breathing exercises 🧘";
        "Try a short meditation session ☯️";
        "Do some light stretching or yoga 💪";
        "Take a warm bath 🛁";
        "Drink herbal tea 🍵"
      ]);
      ("anxious", [
        "Practice 4-7-8 breathing technique 🌬️";
        "Use the 5-4-3-2-1 grounding method 🌍";
        "Write down your thoughts 📝";
        "Listen to calming sounds 🌊";
        "Progressive muscle relaxation 💆"
      ]);
      ("angry", [
        "Physical exercise (running, boxing) 🏃";
        "Punch a pillow or scream into it 😤";
        "Write a letter (but don't send it) ✉️";
        "Count slowly to 10 🔢";
        "Listen to heavy metal music 🎸"
      ])
    ]
|}.

Definition _parse_activity_response (self : t) (response_text : string) : string :=
  Py.strip response_text.

Definition _get_fallback_activity (self : t) (random : Random) (mood : string)
  : io string :=
  let activities :=
    default ["Take a break and breathe deeply 🌬️"] (activity_templates self !! mood) in
  choice random activities.

Definition activity_prompt (mood user_message : string) : string :=
  Py.nl
  +:+ "        The user is feeling " +:+ mood +:+ ". Their message was: "
  +:+ Py.dquote +:+ user_message +:+ Py.dquote +:+ Py.nl
  +:+ "        " +:+ Py.nl
  +:+ "        Suggest ONE appropriate activity that might help them feel better." +:+ Py.nl
  +:+ "        Use this format:" +:+ Py.nl
  +:+ "        ACTIVITY: [Activity description with emoji]" +:+ Py.nl
  +:+ "        EXPLANATION: [Brief explanation of why this activity helps]" +:+ Py.nl
  +:+ "        " +:+ Py.nl
  +:+ "        Keep the suggestion practical, helpful, and empathetic." +:+ Py.nl
  +:+ "        ".

Definition suggest_activity (self : t) (random : Random)
  (mood user_message : string) : io string :=
  if negb (Py.contains ["sad"; "stressed"; "anxious"; "angry"] mood) then
    mret ("Your mood '" +:+ mood
          +:+ "' seems positive! 😊 Keep doing what makes you happy!")
  else
    let prompt := activity_prompt mood user_message in
    try_except
      (response ← generate_content (model self) prompt;
       mret (_parse_activity_response self response))
      (fun e =>
         fallback_activity ← _get_fallback_activity self random mood;
         mret ("ACTIVITY: " +:+ fallback_activity +:+ Py.nl
               +:+ "EXPLANATION: This activity can help improve your mood when feeling "
               +:+ mood +:+ ".")).

End ActivitySuggesterAgent.

Module MoodHandoffSystem.

Record t := {
  mood_analyzer : MoodAnalyzerAgent.t;
  activity_suggester : ActivitySuggesterAgent.t
}.

Definition init (gemini : GenerativeModel) : t := {|
  mood_analyzer := {| MoodAnalyzerAgent.model := gemini |};
  activity_suggester := ActivitySuggesterAgent.init gemini
|}.

Record result := {
  user_message : string;
  mood_analysis : gmap string string;
  activity_suggestion : option string
}.

Definition set_activity_suggestion (s : string) (r : result) : result :=
  {| user_message := user_message r; mood_analysis := mood_analysis r;
     activity_suggestion := Some s |}.

Definition run (self : t) (random : Random) (message : string) : io result :=
  _ ← print "🔍 Agent 1: Analyzing your mood...";
  _ ← sleep 1;
  analysis ← MoodAnalyzerAgent.analyze_mood (mood_analyzer self) message;
  mood ← lift (Py.subscript analysis "mood");
  confidence ← lift (Py.subscript analysis "confidence");
  _ ← print ("✅ Mood detected: " +:+ mood +:+ " (confidence: " +:+ confidence +:+ ")");
  let result := {| user_message := message; mood_analysis := analysis;
                   activity_suggestion := None |} in
  if Py.contains ["sad"; "stressed"; "anxious"; "angry"] mood then
    _ ← print "🔄 Handing off to Activity Suggester Agent...";
    _ ← sleep 1;
    suggestion ← ActivitySuggesterAgent.suggest_activity
                   (activity_suggester self) random mood message;
    let result := set_activity_suggestion suggestion result in
    _ ← print "✅ Activity suggestion generated!";
    mret result
  else
    mret result.

Definition format_results (self : t) (results : result) : outcome string :=
  mood ← Py.subscript (mood_analysis results) "mood";
  confidence ← Py.subscript (mood_analysis results) "confidence";
  let output :=
    Py.nl
    +:+ "        🎭 MOOD ANALYSIS RESULTS" +:+ Py.nl
    +:+ "        " +:+ Py.repeat "=" 40 +:+ Py.nl
    +:+ "        📝 Your message: " +:+ Py.dquote +:+ user_message results
    +:+ Py.dquote +:+ Py.nl
    +:+ "        🎯 Detected mood: " +:+ Py.upper mood +:+ Py.nl
    +:+ "        📊 Confidence: " +:+ Py.upper confidence +:+ Py.nl
    +:+ "        " +:+ Py.repeat "=" 40 +:+ Py.nl
    +:+ "        " in
  match activity_suggestion results with
  | Some (String c r as suggestion) =>
      mret (output +:+ Py.nl
        +:+ "        💡 SUGGESTED ACTIVITY" +:+ Py.nl
        +:+ "        " +:+ Py.repeat "=" 40 +:+ Py.nl
        +:+ "        " +:+ suggestion +:+ Py.nl
        +:+ "        " +:+ Py.repeat "=" 40 +:+ Py.nl
        +:+ "        " +:+ Py.nl
        +:+ "        🌟 Remember: It's okay to feel this way sometimes. " +:+ Py.nl
        +:+ "        Take care of yourself! 💖" +:+ Py.nl
        +:+ "            ")
  | _ =>
      mret (output +:+ Py.nl
        +:+ "        🌟 Great! Your mood seems positive. " +:+ Py.nl
        +:+ "        Keep spreading the good vibes! ✨" +:+ Py.nl
        +:+ "            ")
  end.

(** One iteration of the loop of [run_interactive]. *)
Definition loop_body (self : t) (random : Random) (line : string) : io control :=
  try_except
    (_ ← emit (Input "💬 How are you feeling today? ");
     let user_input := Py.strip line in
     if Py.contains ["quit"; "exit"; "bye"] (Py.lower user_input) then
       _ ← print (Py.nl +:+ "Thank you for using Mood Analyzer! Take care! 👋");
       mret Break
     else if String.eqb user_input "" then
       _ ← print "Please share how you're feeling...";
       mret Continue
     else
       results ← run self random user_input;
       formatted ← lift (format_results self results);
       _ ← print (Py.nl +:+ formatted);
       _ ← print (Py.nl +:+ Py.repeat "=" 50);
       _ ← print "Would you like to share how you're feeling again?";
       mret Continue)
    (fun e =>
       _ ← print (Py.nl +:+ "I apologize, I encountered an error: " +:+ Py.str_exn e);
       _ ← print ("Please try again or take a break and come back later." +:+ Py.nl);
       mret Continue).

Definition run_interactive (self : t) (random : Random) (lines : list string)
  : io session :=
  _ ← print (Py.repeat "=" 50);
  _ ← print "🤖 MOOD ANALYZER WITH HANDOFF SYSTEM";
  _ ← print (Py.repeat "=" 50);
  _ ← print "I can analyze your mood and suggest helpful activities!";
  _ ← print ("Type 'quit' to exit at any time." +:+ Py.nl);
  while_true (loop_body self random) lines.

End MoodHandoffSystem.

(** ** product_suggester.py *)

Module ProductSuggester.

Record t := { model : GenerativeModel }.

(** The values of the analysis dict: a string or a list of strings. *)
Inductive value :=
  | Str (s : string)
  | List (l : list string).

(** The [for line in lines] loop of [_parse_analysis_response], from the
    dict it starts with. *)
Definition parse_lines (lines : list string) (analysis : gmap string value)
  : outcome (gmap string value) :=
  Py.for_in lines analysis
    (fun line analysis =>
       if Py.startswith line "CATEGORY:" then
         rest ← Py.getitem (Py.split1 line ":") 1;
         mret (<["category" := Str (Py.lower (Py.strip rest))]> analysis)
       else if Py.startswith line "SEVERITY:" then
         rest ← Py.getitem (Py.split1 line ":") 1;
         mret (<["severity" := Str (Py.lower (Py.strip rest))]> analysis)
       else if Py.startswith line "SYMPTOMS:" then
         rest ← Py.getitem (Py.split1 line ":") 1;
         let symptoms := Py.strip rest in
         mret (<["symptoms" := List (map Py.strip (Py.split symptoms ","))]> analysis)
       else if Py.startswith line "POTENTIAL_PRODUCTS:" then
         rest ← Py.getitem (Py.split1 line ":") 1;
         let products := Py.strip rest in
         mret (<["potential_products" := List (map Py.strip (Py.split products ","))]> analysis)
       else mret analysis).

Definition _parse_analysis_response (self : t) (response_text : string)
  : outcome (gmap string value) :=
  let lines := Py.split (Py.strip response_text) "010" in
  let analysis : gmap string value :=
    {[ "category" := Str "unknown";
       "severity" := Str "unknown";
       "symptoms" := List [];
       "potential_products" := List [] ]} in
  parse_lines lines analysis.

Section Interactive.

(** [process_query] (analysis, recommendation and [textwrap] layout) is
    kept abstract: the loop is described for any behaviour of it. *)
Variable process_query : t -> string -> io string.

(** One iteration of the loop of [run_interactive]. *)
Definition loop_body (self : t) (line : string) : io control :=
  try_except
    (_ ← emit (Input "👤 How can I help you today? ");
     let user_input := Py.strip line in
     if Py.contains ["quit"; "exit"; "bye"; "goodbye"] (Py.lower user_input) then
       _ ← print (Py.nl +:+ "Thank you for visiting Smart Health Store! Get well soon! 👋");
       mret Break
     else if String.eqb user_input "" then
       _ ← print "Please tell me what you need help with.";
       mret Continue
     else
       recommendation ← process_query self user_input;
       _ ← print (Py.nl +:+ recommendation);
       _ ← print (Py.nl +:+ Py.repeat "=" 60);
       _ ← print "Is there anything else I can help you with today?";
       mret Continue)
    (fun e =>
       _ ← print (Py.nl +:+ "I apologize, I encountered an error: " +:+ Py.str_exn e);
       _ ← print ("Please try again or visit our store for assistance." +:+ Py.nl);
       mret Continue).

Definition run_interactive (self : t) (lines : list string) : io session :=
  _ ← print (Py.repeat "=" 60);
  _ ← print "🏪 WELCOME TO SMART HEALTH STORE - AI PRODUCT SUGGESTER";
  _ ← print (Py.repeat "=" 60);
  _ ← print "I can help you find the right products for your needs!";
  _ ← print "Examples: 'I have a headache', 'My allergies are acting up'";
  _ ← print ("Type 'quit' or 'exit' to end the session" +:+ Py.nl);
  while_true (loop_body self) lines.

End Interactive.

(** The value [__init__] stores in [self.system_prompt]. *)
Definition system_prompt : string :=
  "You are a helpful and knowledgeable pharmacy assistant at Smart Health Store. " +:+ Py.nl
  +:+ "        Your role is to recommend appropriate products based on customer symptoms and needs." +:+ Py.nl
  +:+ "        " +:+ Py.nl
  +:+ "        IMPORTANT GUIDELINES:" +:+ Py.nl
  +:+ "        1. Always recommend specific products from our inventory when possible" +:+ Py.nl
  +:+ "        2. Explain why the product is suitable for their symptoms" +:+ Py.nl
  +:+ "        3. Mention key ingredients and benefits" +:+ Py.nl
  +:+ "        4. Include safety information and recommend consulting a doctor for serious conditions" +:+ Py.nl
  +:+ "        5. Be empathetic and professional" +:+ Py.nl
  +:+ "        6. If unsure, recommend speaking with our in-store pharmacist" +:+ Py.nl
  +:+ "        " +:+ Py.nl
  +:+ "        Available product categories: pain_relief, cold_flu, allergy, digestive_health, first_aid".

Record product := {
  name : string;
  description : string;
  active_ingredient : string;
  price : string;
  benefits : string
}.

(** The value [__init__] stores in [self.product_database]. *)
Definition product_database : gmap string (list product) :=
  list_to_map [
    ("pain_relief", [
        {| name := "PainAway Extra Strength";
           description := "Fast-acting pain reliever for headaches and body aches";
           active_ingredient := "Acetaminophen 500mg";
           price := "$8.99";
           benefits := "Provides quick relief from headaches, muscle pain, and minor arthritis pain" |};
        {| name := "Migraine Relief Caplets";
           description := "Specifically formulated for migraine symptoms";
           active_ingredient := "Acetaminophen, Aspirin, Caffeine";
           price := "$12.99";
           benefits := "Targets migraine pain, sensitivity to light/sound, and nausea" |}
      ]);
    ("cold_flu", [
        {| name := "Cold & Flu Maximum Strength";
           description := "Multi-symptom relief for cold and flu";
           active_ingredient := "Acetaminophen, Dextromethorphan, Phenylephrine";
           price := "$10.99";
           benefits := "Relieves fever, cough, nasal congestion, and body aches" |}
      ]);
    ("allergy", [
        {| name := "Allergy Relief Non-Drowsy";
           description := "24-hour allergy relief without drowsiness";
           active_ingredient := "Loratadine 10mg";
           price := "$15.99";
           benefits := "Provides all-day relief from sneezing, runny nose, and itchy eyes" |}
      ]);
    ("digestive_health", [
        {| name := "Stomach Soother Antacid";
           description := "Fast relief from heartburn and acid indigestion";
           active_ingredient := "Calcium Carbonate";
           price := "$6.99";
           benefits := "Neutralizes stomach acid on contact" |}
      ]);
    ("first_aid", [
        {| name := "Advanced Healing Bandages";
           description := "Bandages with advanced healing technology";
           active_ingredient := "N/A";
           price := "$4.99";
           benefits := "Promotes faster healing and protects against infection" |}
      ])
  ].

Definition analysis_prompt (user_input : string) : string :=
  Py.nl
  +:+ "        " +:+ system_prompt +:+ Py.nl
  +:+ "        " +:+ Py.nl
  +:+ "        Customer query: " +:+ Py.dquote +:+ user_input +:+ Py.dquote +:+ Py.nl
  +:+ "        " +:+ Py.nl
  +:+ "        Analyze this query and determine:" +:+ Py.nl
  +:+ "        1. What category does this fall into? (pain_relief, cold_flu, allergy, digestive_health, first_aid, or unknown)" +:+ Py.nl
  +:+ "        2. How severe does this sound? (mild, moderate, severe)" +:+ Py.nl
  +:+ "        3. What specific symptoms are mentioned?" +:+ Py.nl
  +:+ "        4. Which products from our inventory might be appropriate?" +:+ Py.nl
  +:+ "        " +:+ Py.nl
  +:+ "        Respond in this format:" +:+ Py.nl
  +:+ "        CATEGORY: [category]" +:+ Py.nl
  +:+ "        SEVERITY: [severity]" +:+ Py.nl
  +:+ "        SYMPTOMS: [comma separated symptoms]" +:+ Py.nl
  +:+ "        POTENTIAL_PRODUCTS: [comma separated product names]" +:+ Py.nl
  +:+ "        ".

Definition analyze_user_query (self : t) (user_input : string)
  : io (gmap string value) :=
  let prompt := analysis_prompt user_input in
  try_except
    (response ← generate_content (model self) prompt;
     analysis ← lift (_parse_analysis_response self response);
     mret analysis)
    (fun e =>
       _ ← print ("Error analyzing query: " +:+ Py.str_exn e);
       mret ({[ "category" := Str "unknown";
                "severity" := Str "unknown";
                "symptoms" := List [];
                "potential_products" := List [] ]} : gmap string value)).

(** [str(v)], as an f-string formats a value of the analysis dict. *)
Definition str_value (v : value) : string :=
  match v with
  | Str s => s
  | List l => Py.repr_list l
  end.

(** [sep.join(v)]: the elements of a list, the characters of a string. *)
Definition join_value (sep : string) (v : value) : string :=
  match v with
  | Str s => Py.join sep (Py.chars s)
  | List l => Py.join sep l
  end.

(** The truth value of [v] in a condition. *)
Definition truthy (v : value) : bool :=
  match v with
  | Str s => negb (String.eqb s "")
  | List l => negb (bool_decide (l = []))
  end.

(** [self.product_database.get(category, [])]; a list is not hashable, and
    the [TypeError] this raises is carried as [Exception] with its
    message, as are the [AttributeError]s of [format_recommendation]. *)
Definition database_get (category : value) : outcome (list product) :=
  match category with
  | Str c => Ok (default [] (product_database !! c))
  | List _ => Raise (Exception "unhashable type: 'list'")
  end.

(** The text one turn of [for i, product in enumerate(...)] appends. *)
Definition product_entry (i : nat) (product : product) : string :=
  Py.nl
  +:+ "                Product " +:+ Py.str_nat i +:+ ":" +:+ Py.nl
  +:+ "                - Name: " +:+ name product +:+ Py.nl
  +:+ "                - Description: " +:+ description product +:+ Py.nl
  +:+ "                - Active Ingredient: " +:+ active_ingredient product +:+ Py.nl
  +:+ "                - Benefits: " +:+ benefits product +:+ Py.nl
  +:+ "                - Price: " +:+ price product +:+ Py.nl
  +:+ "                ".

(** The loop over [enumerate(relevant_products, i)], from the text built
    so far. *)
Fixpoint products_info_loop (i : nat) (products : list product)
  (products_info : string) : string :=
  match products with
  | [] => products_info
  | product :: rest =>
      products_info_loop (S i) rest (products_info +:+ product_entry i product)
  end.

Definition general_prompt (user_input symptoms severity : string) : string :=
  Py.nl
  +:+ "            " +:+ system_prompt +:+ Py.nl
  +:+ "            " +:+ Py.nl
  +:+ "            Customer query: " +:+ Py.dquote +:+ user_input +:+ Py.dquote +:+ Py.nl
  +:+ "            " +:+ Py.nl
  +:+ "            Analysis:" +:+ Py.nl
  +:+ "            - Symptoms: " +:+ symptoms +:+ Py.nl
  +:+ "            - Severity: " +:+ severity +:+ Py.nl
  +:+ "            " +:+ Py.nl
  +:+ "            We don't have specific products for this category in our inventory." +:+ Py.nl
  +:+ "            Provide general advice and recommend speaking with our pharmacist." +:+ Py.nl
  +:+ "            ".

Definition products_prompt (user_input category symptoms severity products_info : string)
  : string :=
  Py.nl
  +:+ "            " +:+ system_prompt +:+ Py.nl
  +:+ "            " +:+ Py.nl
  +:+ "            Customer query: " +:+ Py.dquote +:+ user_input +:+ Py.dquote +:+ Py.nl
  +:+ "            " +:+ Py.nl
  +:+ "            Analysis:" +:+ Py.nl
  +:+ "            - Category: " +:+ category +:+ Py.nl
  +:+ "            - Symptoms: " +:+ symptoms +:+ Py.nl
  +:+ "            - Severity: " +:+ severity +:+ Py.nl
  +:+ "            " +:+ Py.nl
  +:+ "            Available products in this category:" +:+ Py.nl
  +:+ "            " +:+ products_info +:+ Py.nl
  +:+ "            " +:+ Py.nl
  +:+ "            Recommend the most appropriate product(s) and explain why it would help." +:+ Py.nl
  +:+ "            Include:" +:+ Py.nl
  +:+ "            1. Product recommendation" +:+ Py.nl
  +:+ "            2. How it addresses their specific symptoms" +:+ Py.nl
  +:+ "            3. Key benefits" +:+ Py.nl
  +:+ "            4. Important usage information" +:+ Py.nl
  +:+ "            5. Safety disclaimer to consult a doctor for serious conditions" +:+ Py.nl
  +:+ "            ".

Definition generate_recommendation (self : t) (user_input : string)
  (analysis : gmap string value) : io string :=
  category ← lift (Py.subscript analysis "category");
  relevant_products ← lift (database_get category);
  prompt ← lift
    (if bool_decide (relevant_products = []) then
       symptoms ← Py.subscript analysis "symptoms";
       severity ← Py.subscript analysis "severity";
       mret (general_prompt user_input (join_value ", " symptoms) (str_value severity))
     else
       let products_info := products_info_loop 1 relevant_products "" in
       symptoms ← Py.subscript analysis "symptoms";
       severity ← Py.subscript analysis "severity";
       mret (products_prompt user_input (str_value category)
               (join_value ", " symptoms) (str_value severity) products_info));
  try_except
    (generate_content (model self) prompt)
    (fun e =>
       mret ("I apologize, I'm having trouble generating a recommendation right now. Error: "
             +:+ Py.str_exn e)).

Section Layout.

(** [textwrap.fill(text, width)], a function of the standard library, is
    kept abstract. *)
Variable fill : string -> nat -> string.

Definition format_recommendation (self : t) (recommendation : string)
  (analysis : gmap string value) : outcome string :=
  category ← Py.subscript analysis "category";
  category_header ←
    match category with
    | Str c => Ok (Py.title (Py.replace c "_" " "))
    | List _ => Raise (Exception "'list' object has no attribute 'replace'")
    end;
  severity ← Py.subscript analysis "severity";
  severity ←
    match severity with
    | Str s => Ok (Py.title s)
    | List _ => Raise (Exception "'list' object has no attribute 'title'")
    end;
  condition ← Py.subscript analysis "symptoms";
  symptoms ←
    (if truthy condition then
       symptoms ← Py.subscript analysis "symptoms";
       mret (join_value ", " symptoms)
     else mret "Not specified");
  mret (
    Py.nl
    +:+ "        🏥 SMART HEALTH STORE RECOMMENDATION" +:+ Py.nl
    +:+ "        " +:+ Py.repeat "=" 50 +:+ Py.nl
    +:+ "        📋 Category: " +:+ category_header +:+ Py.nl
    +:+ "        ⚠️  Severity: " +:+ severity +:+ Py.nl
    +:+ "        🎯 Symptoms: " +:+ symptoms +:+ Py.nl
    +:+ "        " +:+ Py.repeat "=" 50 +:+ Py.nl
    +:+ Py.nl
    +:+ "        💡 RECOMMENDATION:" +:+ Py.nl
    +:+ "        " +:+ fill recommendation 70 +:+ Py.nl
    +:+ Py.nl
    +:+ "        " +:+ Py.repeat "=" 50 +:+ Py.nl
    +:+ "        ⚠️  IMPORTANT: This is an AI recommendation. Please consult with our " +:+ Py.nl
    +:+ "        pharmacist for personalized advice, especially if symptoms persist " +:+ Py.nl
    +:+ "        or worsen. Always read product labels and follow usage instructions." +:+ Py.nl
    +:+ Py.nl
    +:+ "        🏪 Visit us in-store for more options and professional consultation!" +:+ Py.nl
    +:+ "        ").

Definition process_query (self : t) (user_input : string) : io string :=
  _ ← print "🔍 Analyzing your query...";
  _ ← sleep 1;
  analysis ← analyze_user_query self user_input;
  _ ← print "💭 Generating recommendation...";
  _ ← sleep 1;
  recommendation ← generate_recommendation self user_input analysis;
  formatted_response ← lift (format_recommendation self recommendation analysis);
  mret formatted_response.

End Layout.

End ProductSuggester.

(** ** Vocabulary of the properties *)

(** A declarative reading of the two response parsers.  A line carries a
    field when it starts with the field's label, character for character;
    the text after the label is the field's raw value, and the last line
    that carries a field wins. *)

(** The text after [label] when [line] starts with it. *)
Fixpoint remainder (line label : string) {struct label} : option string :=
  match label with
  | EmptyString => Some line
  | String a label' =>
      match line with
      | EmptyString => None
      | String b line' => if Ascii.eqb a b then remainder line' label' else None
      end
  end.

(** The raw value of the last line that carries [label]. *)
Definition labeled (label : string) (lines : list string) : option string :=
  last (omap (fun line => remainder line label) lines).

(** The lines the parsers iterate over: [text.strip().split('\n')]. *)
Definition lines_of (text : string) : list string :=
  Py.split (Py.strip text) "010".

(** An enum-like field: the raw value trimmed and lower-cased. *)
Definition enum_field (default_value label : string) (lines : list string) : string :=
  default default_value ((fun raw => Py.lower (Py.strip raw)) <$> labeled label lines).

(** A multi-valued field: the raw value trimmed, split on commas, each
    element trimmed. *)
Definition list_field (default_value : list string) (label : string)
  (lines : list string) : list string :=
  default default_value
    ((fun raw => map Py.strip (Py.split (Py.strip raw) ",")) <$> labeled label lines).


(** A line of the fallback report: the stored value behind the label of
    its category, or the text that stands for a missing value. *)
Definition report_line (found missing : string) (stored : option string) : string :=
  match stored with
  | Some v => found +:+ v +:+ Py.nl
  | None => missing +:+ "Information not available" +:+ Py.nl
  end.

(** The fallback report for a country, from what the three tables store
    under its key. *)
Definition fallback_report (country : string) (capital language population : option string)
  : string :=
  CountryInfoOrchestrator.report_header country
  +:+ report_line "🏛️  Capital: " "❌ Capital: " capital
  +:+ report_line "🗣️  Language: " "❌ Language: " language
  +:+ report_line "👥 Population: " "❌ Population: " population
  +:+ CountryInfoOrchestrator.report_footer.

(** A line of the report carries a tool's answer: the value under [field]
    when the tool succeeded, the text for a missing value when it did not. *)
Definition carries (line found missing : string)
  (tool_result : gmap string string) (field : string) : Prop :=
  (tool_result !! "status" = Some "success"
   /\ exists v, tool_result !! field = Some v /\ line = found +:+ v +:+ Py.nl)
  \/ (tool_result !! "status" = Some "error"
      /\ line = missing +:+ "Information not available" +:+ Py.nl).

(** Console output, as opposed to a call to the model or a random draw. *)
Definition is_print (e : event) : Prop := exists text, e = Print text.


(** A generative model that is out of reach: every call raises. *)
Definition offline : GenerativeModel :=
  {| reply := fun _ _ => Raise (Exception "service unavailable") |}.


(** A random generator that always draws the first element. *)
Definition first_choice : Random := {| randbelow := fun _ _ => 0 |}.


(** What the user typed is one of the exit words, once trimmed and
    lower-cased. *)
Definition exit_word (words : list string) (line : string) : bool :=
  Py.contains words (Py.lower (Py.strip line)).

(** The prompts sent to the model, in the order of the calls. *)
Fixpoint prompts_sent (t : list event) : list string :=
  match t with
  | [] => []
  | GenerateContent prompt :: rest => prompt :: prompts_sent rest
  | _ :: rest => prompts_sent rest
  end.

(** A model that answers its first call with a mood analysis and every
    later call with an activity. *)
Definition scripted : GenerativeModel :=
  {| reply := fun history _ =>
       match prompts_sent history with
       | [] => Ok ("MOOD: Sad" +:+ Py.nl +:+ "CONFIDENCE: High")
       | _ => Ok "  ACTIVITY: Take a walk  "
       end |}.



(** * Properties *)

(** ** Characters and strings *)

Section Characters.





End Characters.

Section Strings.

Implicit Types s r pad : string.

Lemma append_String c s r : String c s +:+ r = String c (s +:+ r).
Proof. reflexivity. Qed.


Lemma append_assoc s r u : (s +:+ r) +:+ u = s +:+ (r +:+ u).
Proof. induction s as [|c s IH]; [done|]. by rewrite !append_String, IH. Qed.













Lemma startswith_app p r : Py.startswith (p +:+ r) p = true.
Proof.
  induction p as [|a p IH]; [reflexivity|]. rewrite append_String. simpl.
  by rewrite Ascii.eqb_refl.
Qed.

Lemma startswith_inv s p : Py.startswith s p = true -> exists r, s = p +:+ r.
Proof.
  revert s. induction p as [|a p IH]; intros s; simpl.
  - by exists s.
  - destruct s as [|b s]; [done|]. destruct (Ascii.eqb_spec a b) as [->|]; [|done].
    intros [r ->]%IH. by exists r.
Qed.

Lemma contains_elem_of l x : Py.contains l x = true <-> x ∈ l.
Proof.
  unfold Py.contains. rewrite existsb_exists, list_elem_of_In. split.
  - by intros (y & Hy & ->%String.eqb_eq).
  - intros Hx. exists x. by rewrite String.eqb_refl.
Qed.

End Strings.

(** ** Labeled responses *)

Section Labeled.

Lemma remainder_app label r : remainder (label +:+ r) label = Some r.
Proof.
  induction label as [|a label IH]; [reflexivity|].
  rewrite append_String. simpl. by rewrite Ascii.eqb_refl.
Qed.

Lemma remainder_Some line label r :
  remainder line label = Some r <-> line = label +:+ r.
Proof.
  split; [|intros ->; apply remainder_app].
  revert line. induction label as [|a label IH]; intros line; simpl.
  - by intros [= ->].
  - destruct line as [|b line]; [done|].
    destruct (Ascii.eqb_spec a b) as [->|]; [|done].
    intros ->%IH. reflexivity.
Qed.

Lemma startswith_true line label :
  Py.startswith line label = true <-> is_Some (remainder line label).
Proof.
  revert line. induction label as [|a label IH]; intros line; simpl.
  - split; eauto.
  - destruct line as [|b line].
    + split; [done | by intros [? [=]]].
    + destruct (Ascii.eqb a b); [apply IH|].
      split; [done | by intros [? [=]]].
Qed.

Lemma startswith_false line label :
  Py.startswith line label = false <-> remainder line label = None.
Proof.
  rewrite eq_None_not_Some, <- startswith_true.
  by destruct (Py.startswith line label).
Qed.

(** After a label that contains no colon, [line.split(":", 1)[1]] is the
    text after the label. *)
Lemma split1_after_label label r :
  (forall c, c ∈ String.list_ascii_of_string label -> c <> ":"%char) ->
  Py.getitem (Py.split1 (label +:+ ":" +:+ r) ":") 1 = Ok r.
Proof.
  induction label as [|a label IH]; intros Hlabel; [reflexivity|].
  rewrite append_String. unfold Py.getitem in *. simpl.
  destruct (Ascii.eqb_spec a ":") as [->|_].
  - exfalso. eapply Hlabel; [left|done].
  - specialize (IH (fun c Hc => Hlabel c (list_elem_of_further _ _ _ Hc))).
    destruct (Py.split1 (label +:+ ":" +:+ r) ":") as [|h [|h' t]]; done.
Qed.

Lemma labeled_cons label line lines :
  labeled label (line :: lines) =
    match labeled label lines with
    | Some r => Some r
    | None => remainder line label
    end.
Proof.
  unfold labeled. simpl. destruct (remainder line label) as [r|]; simpl.
  - by rewrite last_cons.
  - by destruct (last _).
Qed.



Lemma default_labeled_cons {V} (f : string -> V) d label line lines :
  default d (f <$> labeled label (line :: lines)) =
  default (default d (f <$> remainder line label)) (f <$> labeled label lines).
Proof. rewrite labeled_cons. by destruct (labeled label lines). Qed.

End Labeled.

Arguments remainder : simpl never.
Arguments Py.startswith : simpl never.

(** ** The mood parser *)

Section MoodParser.

Variable self : MoodAnalyzerAgent.t.

Lemma parse_mood_loop lines m c :
  MoodAnalyzerAgent.parse_lines lines {[ "mood" := m; "confidence" := c ]}
  = Ok {[ "mood" := enum_field m "MOOD:" lines;
          "confidence" := enum_field c "CONFIDENCE:" lines ]}.
Proof.
  unfold MoodAnalyzerAgent.parse_lines.
  revert m c. induction lines as [|line lines IH]; intros m c; [done|].
  unfold enum_field. rewrite !default_labeled_cons. simpl.
  destruct (Py.startswith line "MOOD:") eqn:Hmood.
  - apply startswith_inv in Hmood as [r ->].
    change (Py.getitem (Py.split1 ("MOOD:" +:+ r) ":") 1) with (Ok r).
    change (remainder ("MOOD:" +:+ r) "MOOD:") with (Some r).
    change (remainder ("MOOD:" +:+ r) "CONFIDENCE:") with (@None string).
    simpl. rewrite insert_insert_eq. apply IH.
  - apply startswith_false in Hmood as ->.
    destruct (Py.startswith line "CONFIDENCE:") eqn:Hconf.
    + apply startswith_inv in Hconf as [r ->].
      change (Py.getitem (Py.split1 ("CONFIDENCE:" +:+ r) ":") 1) with (Ok r).
      change (remainder ("CONFIDENCE:" +:+ r) "CONFIDENCE:") with (Some r).
      simpl. rewrite (insert_insert_ne _ "confidence" "mood") by done.
      rewrite insert_singleton_eq. apply IH.
    + apply startswith_false in Hconf as ->. apply IH.
Qed.

(** The mood parser never raises, and computes the two enum-like fields
    of the labeled reading with the defaults [neutral] and [medium]. *)
Lemma parse_mood_response_spec text :
  MoodAnalyzerAgent._parse_mood_response self text
  = Ok {[ "mood" := enum_field "neutral" "MOOD:" (lines_of text);
          "confidence" := enum_field "medium" "CONFIDENCE:" (lines_of text) ]}.
Proof. apply parse_mood_loop. Qed.

End MoodParser.

(** ** The product-analysis parser *)

Section AnalysisParser.

Variable self : ProductSuggester.t.

Lemma parse_analysis_loop lines cat sev sym prod :
  ProductSuggester.parse_lines lines
    {[ "category" := ProductSuggester.Str cat;
       "severity" := ProductSuggester.Str sev;
       "symptoms" := ProductSuggester.List sym;
       "potential_products" := ProductSuggester.List prod ]}
  = Ok {[ "category" := ProductSuggester.Str (enum_field cat "CATEGORY:" lines);
          "severity" := ProductSuggester.Str (enum_field sev "SEVERITY:" lines);
          "symptoms" := ProductSuggester.List (list_field sym "SYMPTOMS:" lines);
          "potential_products" :=
            ProductSuggester.List (list_field prod "POTENTIAL_PRODUCTS:" lines) ]}.
Proof.
  unfold ProductSuggester.parse_lines. revert cat sev sym prod.
  induction lines as [|line lines IH]; intros cat sev sym prod; [done|].
  unfold enum_field, list_field. rewrite !default_labeled_cons. simpl.
  destruct (Py.startswith line "CATEGORY:") eqn:Hcat.
  { apply startswith_inv in Hcat as [r ->].
    change (Py.getitem (Py.split1 ("CATEGORY:" +:+ r) ":") 1) with (Ok r).
    change (remainder ("CATEGORY:" +:+ r) "CATEGORY:") with (Some r).
    change (remainder ("CATEGORY:" +:+ r) "SEVERITY:") with (@None string).
    change (remainder ("CATEGORY:" +:+ r) "SYMPTOMS:") with (@None string).
    change (remainder ("CATEGORY:" +:+ r) "POTENTIAL_PRODUCTS:") with (@None string).
    simpl. rewrite insert_insert_eq. apply IH. }
  apply startswith_false in Hcat as ->.
  destruct (Py.startswith line "SEVERITY:") eqn:Hsev.
  { apply startswith_inv in Hsev as [r ->].
    change (Py.getitem (Py.split1 ("SEVERITY:" +:+ r) ":") 1) with (Ok r).
    change (remainder ("SEVERITY:" +:+ r) "SEVERITY:") with (Some r).
    change (remainder ("SEVERITY:" +:+ r) "SYMPTOMS:") with (@None string).
    change (remainder ("SEVERITY:" +:+ r) "POTENTIAL_PRODUCTS:") with (@None string).
    simpl. rewrite (insert_insert_ne _ "severity" "category") by done.
    rewrite insert_insert_eq. apply IH. }
  apply startswith_false in Hsev as ->.
  destruct (Py.startswith line "SYMPTOMS:") eqn:Hsym.
  { apply startswith_inv in Hsym as [r ->].
    change (Py.getitem (Py.split1 ("SYMPTOMS:" +:+ r) ":") 1) with (Ok r).
    change (remainder ("SYMPTOMS:" +:+ r) "SYMPTOMS:") with (Some r).
    change (remainder ("SYMPTOMS:" +:+ r) "POTENTIAL_PRODUCTS:") with (@None string).
    simpl. rewrite (insert_insert_ne _ "symptoms" "category") by done.
    rewrite (insert_insert_ne _ "symptoms" "severity") by done.
    rewrite insert_insert_eq. apply IH. }
  apply startswith_false in Hsym as ->.
  destruct (Py.startswith line "POTENTIAL_PRODUCTS:") eqn:Hprod.
  { apply startswith_inv in Hprod as [r ->].
    change (Py.getitem (Py.split1 ("POTENTIAL_PRODUCTS:" +:+ r) ":") 1) with (Ok r).
    change (remainder ("POTENTIAL_PRODUCTS:" +:+ r) "POTENTIAL_PRODUCTS:") with (Some r).
    simpl. rewrite (insert_insert_ne _ "potential_products" "category") by done.
    rewrite (insert_insert_ne _ "potential_products" "severity") by done.
    rewrite (insert_insert_ne _ "potential_products" "symptoms") by done.
    rewrite insert_singleton_eq. apply IH. }
  apply startswith_false in Hprod as ->. apply IH.
Qed.

(** The analysis parser never raises, and computes the two enum-like and
    the two multi-valued fields of the labeled reading. *)
Lemma parse_analysis_response_spec text :
  ProductSuggester._parse_analysis_response self text
  = Ok {[ "category" :=
            ProductSuggester.Str (enum_field "unknown" "CATEGORY:" (lines_of text));
          "severity" :=
            ProductSuggester.Str (enum_field "unknown" "SEVERITY:" (lines_of text));
          "symptoms" :=
            ProductSuggester.List (list_field [] "SYMPTOMS:" (lines_of text));
          "potential_products" :=
            ProductSuggester.List (list_field [] "POTENTIAL_PRODUCTS:" (lines_of text)) ]}.
Proof. apply parse_analysis_loop. Qed.

End AnalysisParser.

(** ** Claims about the parsers *)

(** C7.  Parsing the text [MOOD: Happy] / [CONFIDENCE: High] yields
    [mood = happy] and [confidence = high]: the values are trimmed and
    lower-cased.  The defaults play no part: the loop gives the same dict
    from whatever values the two fields start with. *)
Theorem parse_mood_happy_high (self : MoodAnalyzerAgent.t) :
  let text := "MOOD: Happy" +:+ Py.nl +:+ "CONFIDENCE: High" in
  MoodAnalyzerAgent._parse_mood_response self text
  = Ok {[ "mood" := "happy"; "confidence" := "high" ]}
  /\ forall default_mood default_confidence,
      MoodAnalyzerAgent.parse_lines (lines_of text)
        {[ "mood" := default_mood; "confidence" := default_confidence ]}
      = Ok {[ "mood" := "happy"; "confidence" := "high" ]}.
Proof.
  split; [by rewrite parse_mood_response_spec|].
  intros m c. by rewrite parse_mood_loop.
Qed.







(** ** The lookup tools *)

Section Tools.

Variables (ct : CountryCapitalTool.t) (lt : CountryLanguageTool.t)
          (pt : CountryPopulationTool.t).

Lemma capital_execute_success name v :
  CountryCapitalTool.country_capitals ct !! Py.lower (Py.strip name) = Some v ->
  CountryCapitalTool.execute ct name =
    {[ "status" := "success"; "capital" := v; "country" := Py.title name ]}.
Proof. unfold CountryCapitalTool.execute. by intros ->. Qed.

Lemma capital_execute_error name :
  CountryCapitalTool.country_capitals ct !! Py.lower (Py.strip name) = None ->
  CountryCapitalTool.execute ct name =
    {[ "status" := "error";
       "message" := "Capital information not available for " +:+ name ]}.
Proof. unfold CountryCapitalTool.execute. by intros ->. Qed.

Lemma language_execute_success name v :
  CountryLanguageTool.country_languages lt !! Py.lower (Py.strip name) = Some v ->
  CountryLanguageTool.execute lt name =
    {[ "status" := "success"; "language" := v; "country" := Py.title name ]}.
Proof. unfold CountryLanguageTool.execute. by intros ->. Qed.

Lemma language_execute_error name :
  CountryLanguageTool.country_languages lt !! Py.lower (Py.strip name) = None ->
  CountryLanguageTool.execute lt name =
    {[ "status" := "error";
       "message" := "Language information not available for " +:+ name ]}.
Proof. unfold CountryLanguageTool.execute. by intros ->. Qed.

Lemma population_execute_success name v :
  CountryPopulationTool.country_populations pt !! Py.lower (Py.strip name) = Some v ->
  CountryPopulationTool.execute pt name =
    {[ "status" := "success"; "population" := v; "country" := Py.title name ]}.
Proof. unfold CountryPopulationTool.execute. by intros ->. Qed.

Lemma population_execute_error name :
  CountryPopulationTool.country_populations pt !! Py.lower (Py.strip name) = None ->
  CountryPopulationTool.execute pt name =
    {[ "status" := "error";
       "message" := "Population information not available for " +:+ name ]}.
Proof. unfold CountryPopulationTool.execute. by intros ->. Qed.


End Tools.



(** ** Running [io] programs *)

Section Stepping.

Context {A B : Type}.
Implicit Types (k : A -> io B) (t : list event).

Lemma run_ret (a : A) k t : (mret a ≫= k) t = k a t.
Proof. reflexivity. Qed.

Lemma run_lift_ok (a : A) k t : (lift (Ok a) ≫= k) t = k a t.
Proof. reflexivity. Qed.


Lemma run_emit (e : event) (k' : unit -> io B) t :
  (emit e ≫= k') t = k' tt (t ++ [e]).
Proof. reflexivity. Qed.

Lemma run_print s (k' : unit -> io B) t :
  (print s ≫= k') t = k' tt (t ++ [Print s]).
Proof. reflexivity. Qed.

Lemma run_sleep n (k' : unit -> io B) t :
  (sleep n ≫= k') t = k' tt (t ++ [Sleep n]).
Proof. reflexivity. Qed.

Lemma run_bind (m : io A) k t :
  (m ≫= k) t = match m t with
               | (Ok a, t') => k a t'
               | (Raise e, t') => (Raise e, t')
               end.
Proof. reflexivity. Qed.

Lemma run_generate_content model prompt (k' : string -> io B) t :
  (generate_content model prompt ≫= k') t =
  match reply model t prompt with
  | Ok text => k' text (t ++ [GenerateContent prompt])
  | Raise e => (Raise e, t ++ [GenerateContent prompt])
  end.
Proof.
  unfold mbind, io_bind, generate_content. by destruct (reply model t prompt).
Qed.

End Stepping.

Lemma run_mret {A} (a : A) (t : list event) : (mret a : io A) t = (Ok a, t).
Proof. reflexivity. Qed.

Ltac io_steps :=
  repeat first
    [ rewrite run_print | rewrite run_sleep | rewrite run_emit
    | rewrite run_lift_ok | rewrite run_ret | rewrite run_mret ].

(** ** The orchestrator *)

Section Subscript.

Context {V : Type}.
Implicit Types (d : gmap string V).

Lemma subscript_insert_eq d k v : Py.subscript (<[k:=v]> d) k = Ok v.
Proof. unfold Py.subscript. by rewrite lookup_insert_eq. Qed.

Lemma subscript_insert_ne d k k' v :
  k <> k' -> Py.subscript (<[k:=v]> d) k' = Py.subscript d k'.
Proof. intros. unfold Py.subscript. by rewrite lookup_insert_ne. Qed.

Lemma subscript_singleton_eq k v : Py.subscript ({[k:=v]} : gmap string V) k = Ok v.
Proof. unfold Py.subscript. by rewrite lookup_singleton_eq. Qed.

End Subscript.

Arguments Py.subscript : simpl never.
Arguments CountryInfoOrchestrator.validate_country : simpl never.

Ltac subscripts :=
  repeat first
    [ rewrite subscript_insert_eq
    | rewrite subscript_singleton_eq
    | rewrite subscript_insert_ne by done ].

Section Orchestrator.

Variable self : CountryInfoOrchestrator.t.

Local Abbreviation capitals :=
  (CountryCapitalTool.country_capitals (CountryInfoOrchestrator.capital_tool self)).
Local Abbreviation languages :=
  (CountryLanguageTool.country_languages (CountryInfoOrchestrator.language_tool self)).
Local Abbreviation populations :=
  (CountryPopulationTool.country_populations (CountryInfoOrchestrator.population_tool self)).
Local Abbreviation key_of name := (Py.lower (Py.strip name)).

(** What [execute_all_tools] returns: it never raises, and
    [all_successful] holds when all three tables have the key. *)
Lemma execute_all_tools_spec name :
  CountryInfoOrchestrator.execute_all_tools self name =
  Ok {| CountryInfoOrchestrator.country := Py.title name;
        CountryInfoOrchestrator.capital :=
          CountryCapitalTool.execute (CountryInfoOrchestrator.capital_tool self) name;
        CountryInfoOrchestrator.language :=
          CountryLanguageTool.execute (CountryInfoOrchestrator.language_tool self) name;
        CountryInfoOrchestrator.population :=
          CountryPopulationTool.execute (CountryInfoOrchestrator.population_tool self) name;
        CountryInfoOrchestrator.all_successful :=
          CountryInfoOrchestrator.has_key capitals (key_of name)
          && CountryInfoOrchestrator.has_key languages (key_of name)
          && CountryInfoOrchestrator.has_key populations (key_of name) |}.
Proof.
  unfold CountryInfoOrchestrator.execute_all_tools, CountryInfoOrchestrator.has_key.
  unfold CountryCapitalTool.execute, CountryLanguageTool.execute,
    CountryPopulationTool.execute.
  destruct (capitals !! _), (languages !! _), (populations !! _);
    simpl; subscripts; simpl; subscripts; simpl; subscripts; reflexivity.
Qed.

(** The fallback formatter on the results of [execute_all_tools]: it
    never raises, and writes one line per category. *)
Lemma create_fallback_report_spec name results :
  CountryInfoOrchestrator.execute_all_tools self name = Ok results ->
  CountryInfoOrchestrator._create_fallback_report self results =
  Ok (fallback_report (Py.title name)
        (capitals !! key_of name) (languages !! key_of name)
        (populations !! key_of name)).
Proof.
  rewrite execute_all_tools_spec. intros [= <-].
  unfold CountryInfoOrchestrator._create_fallback_report, fallback_report.
  unfold CountryCapitalTool.execute, CountryLanguageTool.execute,
    CountryPopulationTool.execute. simpl.
  destruct (capitals !! _), (languages !! _), (populations !! _);
    simpl; subscripts; simpl; subscripts; simpl; subscripts; simpl; subscripts;
    simpl; subscripts; simpl; subscripts; simpl;
    by rewrite !append_assoc.
Qed.

(** C5.  On the results of [execute_all_tools], whatever the tables hold
    (so for every combination of success and error statuses), the
    fallback formatter returns a report, and the report has, between its
    header and footer, one line for the capital, one for the language and
    one for the population, each carrying the stored value or the text
    [Information not available]. *)
Theorem fallback_report_total (name : string) :
  exists results report,
    CountryInfoOrchestrator.execute_all_tools self name = Ok results
    /\ CountryInfoOrchestrator._create_fallback_report self results = Ok report
    /\ exists capital_line language_line population_line,
        report = CountryInfoOrchestrator.report_header
                   (CountryInfoOrchestrator.country results)
                 +:+ capital_line +:+ language_line +:+ population_line
                 +:+ CountryInfoOrchestrator.report_footer
        /\ carries capital_line "🏛️  Capital: " "❌ Capital: "
              (CountryInfoOrchestrator.capital results) "capital"
        /\ carries language_line "🗣️  Language: " "❌ Language: "
              (CountryInfoOrchestrator.language results) "language"
        /\ carries population_line "👥 Population: " "❌ Population: "
              (CountryInfoOrchestrator.population results) "population".
Proof.
  eexists _, _. split; [apply execute_all_tools_spec|].
  split; [apply create_fallback_report_spec, execute_all_tools_spec|].
  eexists _, _, _. split; [reflexivity|]. simpl. unfold carries.
  unfold CountryCapitalTool.execute, CountryLanguageTool.execute,
    CountryPopulationTool.execute.
  destruct (capitals !! _), (languages !! _), (populations !! _);
    repeat split; simpl;
    rewrite ?lookup_insert_eq, ?(lookup_insert_ne _ "status") by done;
    rewrite ?lookup_insert_eq; eauto.
Qed.

Lemma report_prompt_total name results :
  CountryInfoOrchestrator.execute_all_tools self name = Ok results ->
  exists prompt, CountryInfoOrchestrator.report_prompt results = Ok prompt.
Proof.
  rewrite execute_all_tools_spec. intros [= <-].
  unfold CountryInfoOrchestrator.report_prompt,
    CountryInfoOrchestrator.field_or_not_available.
  unfold CountryCapitalTool.execute, CountryLanguageTool.execute,
    CountryPopulationTool.execute. simpl.
  destruct (capitals !! _), (languages !! _), (populations !! _);
    simpl; subscripts; simpl; subscripts; simpl; subscripts; simpl; subscripts;
    simpl; subscripts; simpl; subscripts; simpl; eauto.
Qed.



End Orchestrator.




(** ** The three tables *)

Lemma tables_same_dom :
  dom (CountryCapitalTool.country_capitals CountryCapitalTool.init)
  = dom (CountryLanguageTool.country_languages CountryLanguageTool.init)
  /\ dom (CountryLanguageTool.country_languages CountryLanguageTool.init)
     = dom (CountryPopulationTool.country_populations CountryPopulationTool.init).
Proof.
  unfold CountryCapitalTool.init, CountryLanguageTool.init, CountryPopulationTool.init.
  cbn [CountryCapitalTool.country_capitals CountryLanguageTool.country_languages
         CountryPopulationTool.country_populations].
  rewrite !dom_list_to_map_L. split; reflexivity.
Qed.

(** C9.  The three tables have the same keys; so for every input that
    [validate_country] accepts, each of the three tools answers with
    status [success], and [execute_all_tools] returns with
    [all_successful] set. *)
Theorem tables_share_keys :
  (dom (CountryCapitalTool.country_capitals CountryCapitalTool.init)
   = dom (CountryLanguageTool.country_languages CountryLanguageTool.init)
   /\ dom (CountryLanguageTool.country_languages CountryLanguageTool.init)
      = dom (CountryPopulationTool.country_populations CountryPopulationTool.init))
  /\ forall (gemini : GenerativeModel) (name : string),
      let self := CountryInfoOrchestrator.init gemini in
      CountryInfoOrchestrator.is_valid
        (CountryInfoOrchestrator.validate_country self name) = true ->
      CountryCapitalTool.execute
        (CountryInfoOrchestrator.capital_tool self) name !! "status" = Some "success"
      /\ CountryLanguageTool.execute
           (CountryInfoOrchestrator.language_tool self) name !! "status" = Some "success"
      /\ CountryPopulationTool.execute
           (CountryInfoOrchestrator.population_tool self) name !! "status" = Some "success"
      /\ exists results,
          CountryInfoOrchestrator.execute_all_tools self name = Ok results
          /\ CountryInfoOrchestrator.all_successful results = true.
Proof.
  split; [exact tables_same_dom|]. intros gemini name self Hvalid. subst self.
  destruct tables_same_dom as [Hcl Hlp].
  set (key := Py.lower (Py.strip name)).
  assert (key ∈ dom (CountryCapitalTool.country_capitals CountryCapitalTool.init)) as Hcap.
  { unfold CountryInfoOrchestrator.validate_country,
      CountryInfoOrchestrator.has_key in Hvalid.
    cbn [CountryInfoOrchestrator.is_valid CountryInfoOrchestrator.init
           CountryInfoOrchestrator.capital_tool CountryInfoOrchestrator.language_tool
           CountryInfoOrchestrator.population_tool] in Hvalid.
    fold key in Hvalid.
    apply orb_prop in Hvalid as [[H|H]%orb_prop|H];
      apply bool_decide_eq_true_1, elem_of_dom in H.
    - exact H.
    - by rewrite Hcl.
    - by rewrite Hcl, Hlp. }
  assert (key ∈ dom (CountryLanguageTool.country_languages CountryLanguageTool.init))
    as Hlang by (by rewrite <- Hcl).
  assert (key ∈ dom (CountryPopulationTool.country_populations CountryPopulationTool.init))
    as Hpop by (by rewrite <- Hlp).
  apply elem_of_dom in Hcap as [c Hc], Hlang as [l Hl], Hpop as [p Hp].
  cbn [CountryInfoOrchestrator.init CountryInfoOrchestrator.capital_tool
         CountryInfoOrchestrator.language_tool CountryInfoOrchestrator.population_tool].
  rewrite (capital_execute_success _ _ _ Hc), (language_execute_success _ _ _ Hl),
    (population_execute_success _ _ _ Hp).
  repeat split; try apply lookup_insert_eq.
  eexists. split; [apply execute_all_tools_spec|].
  cbn [CountryInfoOrchestrator.all_successful].
  unfold CountryInfoOrchestrator.has_key. fold key.
  change (CountryCapitalTool.country_capitals _) with
    (CountryCapitalTool.country_capitals CountryCapitalTool.init).
  change (CountryLanguageTool.country_languages _) with
    (CountryLanguageTool.country_languages CountryLanguageTool.init).
  change (CountryPopulationTool.country_populations _) with
    (CountryPopulationTool.country_populations CountryPopulationTool.init).
  by rewrite Hc, Hl, Hp.
Qed.

Lemma tables_share_keys_witness :
  exists results,
    CountryInfoOrchestrator.execute_all_tools
      (CountryInfoOrchestrator.init offline) " germany " = Ok results
    /\ CountryInfoOrchestrator.all_successful results = true.
Proof.
  apply (proj2 tables_share_keys offline " germany ").
  vm_compute. reflexivity.
Defined.

(** ** The interactive loops *)

Section Loops.

Variables (bot : CountryInfoBot.t) (system : MoodHandoffSystem.t)
          (random : Random) (suggester : ProductSuggester.t)
          (process_query : ProductSuggester.t -> string -> io string).





End Loops.



(** ** The mood hand-off *)

Section Handoff.

Variables (gemini : GenerativeModel) (random : Random).

(** The analyzer always returns a dict with both fields; it calls the
    model once and may print one notice. *)
Lemma analyze_mood_spec (analyzer : MoodAnalyzerAgent.t) message t :
  exists mood confidence notices,
    MoodAnalyzerAgent.analyze_mood analyzer message t
    = (Ok {[ "mood" := mood; "confidence" := confidence ]},
       t ++ GenerateContent (MoodAnalyzerAgent.mood_prompt message) :: notices)
    /\ Forall is_print notices.
Proof.
  unfold MoodAnalyzerAgent.analyze_mood. cbv zeta. unfold try_except.
  rewrite run_generate_content.
  destruct (reply _ _ _) as [text|e].
  - unfold lift. rewrite parse_mood_response_spec. eexists _, _, []. done.
  - io_steps. rewrite <- app_assoc. eexists _, _, [_]. split; [done|].
    repeat constructor. by eexists.
Qed.

Lemma getitem_mod {A} (l : list A) (i : nat) :
  l <> [] -> exists x, Py.getitem l (i `mod` length l) = Ok x.
Proof.
  intros Hl. unfold Py.getitem.
  destruct (lookup_lt_is_Some_2 l (i `mod` length l)) as [x ->]; [|by eexists].
  apply Nat.mod_upper_bound. by destruct l.
Qed.

Lemma fallback_activity_total mood t :
  mood ∈ ["sad"; "stressed"; "anxious"; "angry"] ->
  exists activity t',
    ActivitySuggesterAgent._get_fallback_activity
      (ActivitySuggesterAgent.init gemini) random mood t = (Ok activity, t').
Proof.
  intros Hmood. unfold ActivitySuggesterAgent._get_fallback_activity, choice.
  assert (exists a rest,
             default ["Take a break and breathe deeply 🌬️"]
               (ActivitySuggesterAgent.activity_templates
                  (ActivitySuggesterAgent.init gemini) !! mood) = a :: rest)
    as (a & rest & ->).
  { repeat (apply elem_of_cons in Hmood as [->|Hmood]; [by eexists _, _|]).
    by apply elem_of_nil in Hmood. }
  destruct (getitem_mod (a :: rest) (randbelow random t (length (a :: rest))))
    as [x ->]; [done|]. by eexists _, _.
Qed.

Lemma suggest_activity_total mood message t :
  exists suggestion t',
    ActivitySuggesterAgent.suggest_activity
      (ActivitySuggesterAgent.init gemini) random mood message t
    = (Ok suggestion, t').
Proof.
  unfold ActivitySuggesterAgent.suggest_activity.
  destruct (Py.contains _ mood) eqn:Hmood; cbn [negb]; [|by eexists _, _].
  cbv zeta. unfold try_except. rewrite run_generate_content.
  destruct (reply _ _ _) as [text|e]; [by eexists _, _|].
  apply contains_elem_of in Hmood.
  rewrite run_bind.
  destruct (fallback_activity_total mood
              (t ++ [GenerateContent
                       (ActivitySuggesterAgent.activity_prompt mood message)]) Hmood)
    as (activity & t' & ->).
  by eexists _, _.
Qed.

(** C10.  [run] always returns.  Its result carries an activity
    suggestion exactly when the detected mood is one of [sad],
    [stressed], [anxious], [angry].  For any other mood (the default
    [neutral] of a failed analysis and unexpected strings included) the
    suggestion is [None] and nothing happens after the mood is printed:
    the only call to the model is the mood analysis, so the activity
    suggester is not run. *)
Theorem run_hands_off_iff (message : string) (t : list event) :
  exists (r : MoodHandoffSystem.result) (t' : list event) (mood confidence : string),
    MoodHandoffSystem.run (MoodHandoffSystem.init gemini) random message t = (Ok r, t')
    /\ MoodHandoffSystem.user_message r = message
    /\ MoodHandoffSystem.mood_analysis r !! "mood" = Some mood
    /\ MoodHandoffSystem.mood_analysis r !! "confidence" = Some confidence
    /\ (MoodHandoffSystem.activity_suggestion r <> None
        <-> mood ∈ ["sad"; "stressed"; "anxious"; "angry"])
    /\ (mood ∉ ["sad"; "stressed"; "anxious"; "angry"] ->
        MoodHandoffSystem.activity_suggestion r = None
        /\ exists notices,
            Forall is_print notices
            /\ t' = t ++ [Print "🔍 Agent 1: Analyzing your mood..."; Sleep 1;
                          GenerateContent (MoodAnalyzerAgent.mood_prompt message)]
                      ++ notices
                      ++ [Print ("✅ Mood detected: " +:+ mood +:+ " (confidence: "
                                 +:+ confidence +:+ ")")]).
Proof.
  unfold MoodHandoffSystem.run. io_steps. rewrite run_bind.
  destruct (analyze_mood_spec
              (MoodHandoffSystem.mood_analyzer (MoodHandoffSystem.init gemini)) message
              ((t ++ [Print "🔍 Agent 1: Analyzing your mood..."]) ++ [Sleep 1]))
    as (mood & confidence & notices & -> & Hnotices).
  subscripts. io_steps. subscripts. io_steps. cbv zeta.
  destruct (Py.contains _ mood) eqn:Hmood.
  - io_steps. rewrite run_bind.
    change (MoodHandoffSystem.activity_suggester (MoodHandoffSystem.init gemini))
      with (ActivitySuggesterAgent.init gemini).
    match goal with
    | |- context [ActivitySuggesterAgent.suggest_activity ?a ?r ?m ?msg ?h] =>
        destruct (suggest_activity_total m msg h) as (suggestion & t' & ->)
    end.
    io_steps. apply contains_elem_of in Hmood.
    eexists _, _, mood, confidence. split; [reflexivity|].
    cbn [MoodHandoffSystem.mood_analysis MoodHandoffSystem.user_message
           MoodHandoffSystem.activity_suggestion
           MoodHandoffSystem.set_activity_suggestion].
    split; [done|]. split; [by rewrite lookup_insert_eq|].
    split; [by rewrite lookup_insert_ne, lookup_singleton_eq|].
    split; [done|]. done.
  - assert (mood ∉ ["sad"; "stressed"; "anxious"; "angry"]) as Hnot.
    { intros Hin%contains_elem_of. congruence. }
    eexists _, _, mood, confidence. split; [reflexivity|].
    cbn [MoodHandoffSystem.mood_analysis MoodHandoffSystem.user_message
           MoodHandoffSystem.activity_suggestion].
    split; [done|]. split; [by rewrite lookup_insert_eq|].
    split; [by rewrite lookup_insert_ne, lookup_singleton_eq|].
    split; [split; [done|by intros ?]|].
    intros _. split; [done|]. exists notices. split; [done|].
    rewrite <- !app_assoc. reflexivity.
Qed.

End Handoff.

(** * Further properties of the code *)

(** ** Validation, tools and prompt of the country orchestrator *)

Section OrchestratorMore.

Variable self : CountryInfoOrchestrator.t.

Local Abbreviation capitals :=
  (CountryCapitalTool.country_capitals (CountryInfoOrchestrator.capital_tool self)).
Local Abbreviation languages :=
  (CountryLanguageTool.country_languages (CountryInfoOrchestrator.language_tool self)).
Local Abbreviation populations :=
  (CountryPopulationTool.country_populations (CountryInfoOrchestrator.population_tool self)).
Local Abbreviation key_of name := (Py.lower (Py.strip name)).
Local Abbreviation succeeded r := (r !! "status" = Some "success").

(** X1.  Whatever the three tables hold, the flags of [validate_country]
    agree with the status of the tools: a flag is set exactly when the
    tool of that table answers [success], the input is valid exactly when
    some tool does, and [execute_all_tools] sets [all_successful] exactly
    when all three do. *)
Theorem validation_tools_agree (name : string) :
  let v := CountryInfoOrchestrator.validate_country self name in
  let cap := CountryCapitalTool.execute (CountryInfoOrchestrator.capital_tool self) name in
  let lang := CountryLanguageTool.execute (CountryInfoOrchestrator.language_tool self) name in
  let pop :=
    CountryPopulationTool.execute (CountryInfoOrchestrator.population_tool self) name in
  (CountryInfoOrchestrator.exists_in_capitals v = true <-> succeeded cap)
  /\ (CountryInfoOrchestrator.exists_in_languages v = true <-> succeeded lang)
  /\ (CountryInfoOrchestrator.exists_in_populations v = true <-> succeeded pop)
  /\ (CountryInfoOrchestrator.is_valid v = true
      <-> succeeded cap \/ succeeded lang \/ succeeded pop)
  /\ exists results,
      CountryInfoOrchestrator.execute_all_tools self name = Ok results
      /\ (CountryInfoOrchestrator.all_successful results = true
          <-> succeeded cap /\ succeeded lang /\ succeeded pop).
Proof.
  intros v cap lang pop.
  assert (exists results,
             CountryInfoOrchestrator.execute_all_tools self name = Ok results
             /\ CountryInfoOrchestrator.all_successful results
                = CountryInfoOrchestrator.exists_in_capitals v
                  && CountryInfoOrchestrator.exists_in_languages v
                  && CountryInfoOrchestrator.exists_in_populations v)
    as (results & Hresults & Hall).
  { eexists. split; [apply execute_all_tools_spec|reflexivity]. }
  assert (CountryInfoOrchestrator.exists_in_capitals v = true <-> succeeded cap) as Hcap.
  { unfold v, cap, CountryInfoOrchestrator.validate_country,
      CountryInfoOrchestrator.has_key, CountryCapitalTool.execute.
    cbn [CountryInfoOrchestrator.exists_in_capitals].
    destruct (capitals !! _); rewrite lookup_insert_eq.
    - by rewrite bool_decide_eq_true_2 by eauto.
    - rewrite bool_decide_eq_false_2 by (by intros [? [=]]). by split. }
  assert (CountryInfoOrchestrator.exists_in_languages v = true <-> succeeded lang) as Hlang.
  { unfold v, lang, CountryInfoOrchestrator.validate_country,
      CountryInfoOrchestrator.has_key, CountryLanguageTool.execute.
    cbn [CountryInfoOrchestrator.exists_in_languages].
    destruct (languages !! _); rewrite lookup_insert_eq.
    - by rewrite bool_decide_eq_true_2 by eauto.
    - rewrite bool_decide_eq_false_2 by (by intros [? [=]]). by split. }
  assert (CountryInfoOrchestrator.exists_in_populations v = true <-> succeeded pop) as Hpop.
  { unfold v, pop, CountryInfoOrchestrator.validate_country,
      CountryInfoOrchestrator.has_key, CountryPopulationTool.execute.
    cbn [CountryInfoOrchestrator.exists_in_populations].
    destruct (populations !! _); rewrite lookup_insert_eq.
    - by rewrite bool_decide_eq_true_2 by eauto.
    - rewrite bool_decide_eq_false_2 by (by intros [? [=]]). by split. }
  split; [exact Hcap|]. split; [exact Hlang|]. split; [exact Hpop|]. split.
  - rewrite <- Hcap, <- Hlang, <- Hpop.
    change (CountryInfoOrchestrator.is_valid v)
      with (CountryInfoOrchestrator.exists_in_capitals v
            || CountryInfoOrchestrator.exists_in_languages v
            || CountryInfoOrchestrator.exists_in_populations v).
    rewrite !orb_true_iff. tauto.
  - exists results. split; [exact Hresults|].
    rewrite Hall, <- Hcap, <- Hlang, <- Hpop, !andb_true_iff. tauto.
Qed.



Lemma process_invalid (name : string) (t : list event) :
  CountryInfoOrchestrator.is_valid
    (CountryInfoOrchestrator.validate_country self name) = false ->
  CountryInfoOrchestrator.process_country_query self name t
  = (Ok (CountryInfoOrchestrator.QueryError
           ("Sorry, I don't have information about '" +:+ name +:+ "' in my database.")
           "Try countries like USA, India, Germany, Japan, Brazil, etc."),
     t ++ [Print ("🔍 Validating country: " +:+ name +:+ "..."); Sleep 1]).
Proof.
  intros Hvalid. unfold CountryInfoOrchestrator.process_country_query. io_steps.
  rewrite Hvalid. cbn [negb]. io_steps. by rewrite <- app_assoc.
Qed.

(** The run of a query that validation accepts, on both outcomes of the
    call to the model. *)
Lemma process_valid (name : string) (t : list event) :
  let before_call :=
    t ++ [Print ("🔍 Validating country: " +:+ name +:+ "..."); Sleep 1;
          Print "🔄 Executing all information tools..."; Sleep 1;
          Print "📊 Generating comprehensive report..."; Sleep 1] in
  CountryInfoOrchestrator.is_valid
    (CountryInfoOrchestrator.validate_country self name) = true ->
  exists results prompt,
    CountryInfoOrchestrator.execute_all_tools self name = Ok results
    /\ CountryInfoOrchestrator.report_prompt results = Ok prompt
    /\ CountryInfoOrchestrator.process_country_query self name t
       = (Ok (CountryInfoOrchestrator.QuerySuccess (Py.title name) results
                match reply (CountryInfoOrchestrator.model self) before_call prompt with
                | Ok text => text
                | Raise _ =>
                    fallback_report (Py.title name) (capitals !! key_of name)
                      (languages !! key_of name) (populations !! key_of name)
                end
                (CountryInfoOrchestrator.validate_country self name)),
          before_call ++ [GenerateContent prompt]).
Proof.
  intros before_call Hvalid.
  destruct (CountryInfoOrchestrator.execute_all_tools self name)
    as [results|] eqn:Hresults; [|by rewrite execute_all_tools_spec in Hresults].
  destruct (report_prompt_total _ _ _ Hresults) as [prompt Hprompt].
  pose proof (create_fallback_report_spec _ _ _ Hresults) as Hreport.
  exists results, prompt. split; [done|]. split; [done|].
  unfold CountryInfoOrchestrator.process_country_query. io_steps.
  rewrite Hvalid. cbn [negb]. io_steps. rewrite Hresults. io_steps.
  unfold CountryInfoOrchestrator.generate_complete_report.
  rewrite Hprompt, run_bind. io_steps.
  unfold try_except, generate_content, before_call.
  rewrite <- !app_assoc. cbn [app].
  destruct (reply _ _ _) as [text|e]; [reflexivity|].
  unfold lift. by rewrite Hreport.
Qed.

(** X4.  For an input that validation accepts, the report of
    [process_country_query] is the text of the model when the call
    succeeds, taken as it comes, and the fallback report when it raises.
    Either way the model is called once, with the prompt built from the
    results of the tools, after the three notices. *)
Theorem process_country_query_report (name : string) (t : list event) :
  let before_call :=
    t ++ [Print ("🔍 Validating country: " +:+ name +:+ "..."); Sleep 1;
          Print "🔄 Executing all information tools..."; Sleep 1;
          Print "📊 Generating comprehensive report..."; Sleep 1] in
  CountryInfoOrchestrator.is_valid
    (CountryInfoOrchestrator.validate_country self name) = true ->
  exists results prompt,
    CountryInfoOrchestrator.execute_all_tools self name = Ok results
    /\ CountryInfoOrchestrator.report_prompt results = Ok prompt
    /\ CountryInfoOrchestrator.process_country_query self name t
       = (Ok (CountryInfoOrchestrator.QuerySuccess (Py.title name) results
                match reply (CountryInfoOrchestrator.model self) before_call prompt with
                | Ok text => text
                | Raise _ =>
                    fallback_report (Py.title name) (capitals !! key_of name)
                      (languages !! key_of name) (populations !! key_of name)
                end
                (CountryInfoOrchestrator.validate_country self name)),
          before_call ++ [GenerateContent prompt]).
Proof.
  intros before_call Hvalid.
  destruct (process_valid name t Hvalid) as (results & prompt & Htools & Hprompt & Hrun).
  exists results, prompt. split; [exact Htools|]. split; [exact Hprompt|exact Hrun].
Qed.

(** X5.  [process_country_query] never raises, whatever the tables, the
    model and the input.  Its status is [success] exactly when validation
    accepts the input, and it calls the model once in that case and not at
    all otherwise. *)
Theorem process_country_query_status (name : string) (t : list event) :
  exists answer added,
    CountryInfoOrchestrator.process_country_query self name t = (Ok answer, t ++ added)
    /\ (CountryInfoOrchestrator.status answer = "success"
        <-> CountryInfoOrchestrator.is_valid
              (CountryInfoOrchestrator.validate_country self name) = true)
    /\ length (prompts_sent added)
       = if CountryInfoOrchestrator.is_valid
              (CountryInfoOrchestrator.validate_country self name)
         then 1 else 0.
Proof.
  destruct (CountryInfoOrchestrator.is_valid _) eqn:Hvalid.
  - destruct (process_valid name t Hvalid)
      as (results & prompt & _ & _ & ->).
    eexists _, _. split; [by rewrite <- app_assoc|]. done.
  - rewrite (process_invalid name t Hvalid). eexists _, _. split; [done|].
    split; [|done]. split; done.
Qed.

End OrchestratorMore.


Lemma process_country_query_report_witness :
  exists results prompt,
    CountryInfoOrchestrator.process_country_query
      (CountryInfoOrchestrator.init scripted) "Japan" []
    = (Ok (CountryInfoOrchestrator.QuerySuccess "Japan" results
             ("MOOD: Sad" +:+ Py.nl +:+ "CONFIDENCE: High")
             (CountryInfoOrchestrator.validate_country
                (CountryInfoOrchestrator.init scripted) "Japan")),
       [Print "🔍 Validating country: Japan..."; Sleep 1;
        Print "🔄 Executing all information tools..."; Sleep 1;
        Print "📊 Generating comprehensive report..."; Sleep 1;
        GenerateContent prompt]).
Proof.
  assert (CountryInfoOrchestrator.is_valid
            (CountryInfoOrchestrator.validate_country
               (CountryInfoOrchestrator.init scripted) "Japan") = true) as Hvalid
    by (vm_compute; reflexivity).
  destruct (process_country_query_report (CountryInfoOrchestrator.init scripted)
              "Japan" [] Hvalid) as (results & prompt & _ & _ & Hrun).
  exists results, prompt. rewrite Hrun. reflexivity.
Defined.

(** ** The loops, query by query *)

Section LoopsMore.

Variables (bot : CountryInfoBot.t) (system : MoodHandoffSystem.t)
          (random : Random) (suggester : ProductSuggester.t)
          (process_query : ProductSuggester.t -> string -> io string).

Lemma eqb_empty_false s : s <> "" -> String.eqb s "" = false.
Proof. intros H. by apply String.eqb_neq. Qed.










End LoopsMore.

(** ** The parsers on noisy responses *)

Section StripFacts.

Implicit Types s u : string.









End StripFacts.

Section ParsersMore.

Variables (agent : MoodAnalyzerAgent.t) (suggester : ProductSuggester.t).








End ParsersMore.

(** ** The mood agents, call by call *)

Section AgentsMore.

Variables (system : MoodHandoffSystem.t) (random : Random).

Local Abbreviation analyzer := (MoodHandoffSystem.mood_analyzer system).
Local Abbreviation activities_agent := (MoodHandoffSystem.activity_suggester system).

Lemma analyze_mood_cases (agent : MoodAnalyzerAgent.t) message t :
  MoodAnalyzerAgent.analyze_mood agent message t
  = match reply (MoodAnalyzerAgent.model agent) t
            (MoodAnalyzerAgent.mood_prompt message) with
    | Ok text =>
        (MoodAnalyzerAgent._parse_mood_response agent text,
         t ++ [GenerateContent (MoodAnalyzerAgent.mood_prompt message)])
    | Raise e =>
        (Ok {[ "mood" := "neutral"; "confidence" := "medium" ]},
         t ++ [GenerateContent (MoodAnalyzerAgent.mood_prompt message);
               Print ("Error analyzing mood: " +:+ Py.str_exn e)])
    end.
Proof.
  unfold MoodAnalyzerAgent.analyze_mood. cbv zeta. unfold try_except.
  rewrite run_generate_content. destruct (reply _ _ _) as [text|e].
  - unfold lift. by rewrite parse_mood_response_spec.
  - io_steps. by rewrite <- app_assoc.
Qed.

(** X13.  [analyze_mood] never raises and always returns a dict with
    exactly the keys [mood] and [confidence].  It calls the model once:
    when the call succeeds the dict is the parse of the reply, and when
    it raises the dict is [neutral] / [medium] and the error is printed. *)
Theorem analyze_mood_outcomes (agent : MoodAnalyzerAgent.t) (message : string)
  (t : list event) :
  let prompt := MoodAnalyzerAgent.mood_prompt message in
  exists analysis added,
    MoodAnalyzerAgent.analyze_mood agent message t = (Ok analysis, t ++ added)
    /\ dom analysis = {[ "mood"; "confidence" ]}
    /\ prompts_sent added = [prompt]
    /\ match reply (MoodAnalyzerAgent.model agent) t prompt with
       | Ok text =>
           MoodAnalyzerAgent._parse_mood_response agent text = Ok analysis
           /\ added = [GenerateContent prompt]
       | Raise e =>
           analysis = {[ "mood" := "neutral"; "confidence" := "medium" ]}
           /\ added = [GenerateContent prompt;
                       Print ("Error analyzing mood: " +:+ Py.str_exn e)]
       end.
Proof.
  intros prompt. rewrite analyze_mood_cases. fold prompt.
  destruct (reply _ _ _) as [text|e].
  - rewrite parse_mood_response_spec. eexists _, _. split; [reflexivity|].
    split; [by rewrite dom_insert_L, dom_singleton_L|]. done.
  - eexists _, _. split; [reflexivity|].
    split; [by rewrite dom_insert_L, dom_singleton_L|]. done.
Qed.

(** X14.  When the mood analysis call raises, [run] still returns: the
    mood is [neutral] with confidence [medium], there is no hand-off and
    no suggestion, and the events are the notice, the pause, the call, the
    error and the detected mood. *)
Theorem run_defaults_when_analysis_fails (message : string) (t : list event) (e : exn) :
  reply (MoodAnalyzerAgent.model analyzer)
    (t ++ [Print "🔍 Agent 1: Analyzing your mood..."; Sleep 1])
    (MoodAnalyzerAgent.mood_prompt message) = Raise e ->
  MoodHandoffSystem.run system random message t
  = (Ok {| MoodHandoffSystem.user_message := message;
           MoodHandoffSystem.mood_analysis :=
             {[ "mood" := "neutral"; "confidence" := "medium" ]};
           MoodHandoffSystem.activity_suggestion := None |},
     t ++ [Print "🔍 Agent 1: Analyzing your mood..."; Sleep 1;
           GenerateContent (MoodAnalyzerAgent.mood_prompt message);
           Print ("Error analyzing mood: " +:+ Py.str_exn e);
           Print "✅ Mood detected: neutral (confidence: medium)"]).
Proof.
  intros Hraise. unfold MoodHandoffSystem.run. io_steps.
  rewrite run_bind, analyze_mood_cases.
  rewrite <- app_assoc in *. cbn [app] in *. rewrite Hraise.
  subscripts. io_steps. subscripts. io_steps. cbv zeta.
  cbn [Py.contains existsb String.eqb Ascii.eqb Bool.eqb orb andb].
  io_steps. by rewrite <- !app_assoc.
Qed.


End AgentsMore.

Lemma run_defaults_when_analysis_fails_witness :
  MoodHandoffSystem.run (MoodHandoffSystem.init offline) first_choice "I feel down" []
  = (Ok {| MoodHandoffSystem.user_message := "I feel down";
           MoodHandoffSystem.mood_analysis :=
             {[ "mood" := "neutral"; "confidence" := "medium" ]};
           MoodHandoffSystem.activity_suggestion := None |},
     [] ++ [Print "🔍 Agent 1: Analyzing your mood..."; Sleep 1;
            GenerateContent (MoodAnalyzerAgent.mood_prompt "I feel down");
            Print ("Error analyzing mood: " +:+ Py.str_exn (Exception "service unavailable"));
            Print "✅ Mood detected: neutral (confidence: medium)"]).
Proof.
  apply (run_defaults_when_analysis_fails (MoodHandoffSystem.init offline) first_choice
           "I feel down" [] (Exception "service unavailable")).
  reflexivity.
Defined.


(** ** Suggestions and the fallback activities *)

Section SuggestionsMore.

Variables (gemini : GenerativeModel) (random : Random).

Lemma getitem_elem {A} (l : list A) (i : nat) (x : A) :
  Py.getitem l i = Ok x -> x ∈ l.
Proof.
  unfold Py.getitem. destruct (l !! i) eqn:Hi; [|done].
  intros [= <-]. by eapply list_elem_of_lookup_2.
Qed.

Lemma choice_nonempty (l : list string) (t : list event) :
  l <> [] ->
  exists x, x ∈ l /\ choice random l t = (Ok x, t ++ [RandomChoice l]).
Proof.
  intros Hl. unfold choice.
  destruct (getitem_mod l (randbelow random t (length l)) Hl) as [x Hx].
  exists x. split; [by eapply getitem_elem|]. rewrite Hx. by destruct l.
Qed.

(** X16.  [_get_fallback_activity], for any table of templates: a mood
    without an entry gets the one default activity whatever the random
    draw; a mood with activities gets one of its own activities; a mood
    whose entry is the empty list makes [random.choice] raise
    [IndexError]. *)
Theorem fallback_activity_contract (self : ActivitySuggesterAgent.t) (mood : string)
  (t : list event) :
  let fallback := "Take a break and breathe deeply 🌬️" in
  match ActivitySuggesterAgent.activity_templates self !! mood with
  | None =>
      ActivitySuggesterAgent._get_fallback_activity self random mood t
      = (Ok fallback, t ++ [RandomChoice [fallback]])
  | Some [] =>
      ActivitySuggesterAgent._get_fallback_activity self random mood t
      = (Raise (IndexError "Cannot choose from an empty sequence"),
         t ++ [RandomChoice []])
  | Some activities =>
      exists activity,
        activity ∈ activities
        /\ ActivitySuggesterAgent._get_fallback_activity self random mood t
           = (Ok activity, t ++ [RandomChoice activities])
  end.
Proof.
  intros fallback. unfold ActivitySuggesterAgent._get_fallback_activity.
  destruct (ActivitySuggesterAgent.activity_templates self !! mood)
    as [[|a activities]|]; simpl.
  - reflexivity.
  - by apply choice_nonempty.
  - unfold choice. cbn [length]. by rewrite Nat.mod_1_r.
Qed.



End SuggestionsMore.

(** ** The mood loop on a message *)

Section MoodLoopMore.

Variables (gemini : GenerativeModel) (random : Random).




End MoodLoopMore.


(** ** The product suggester, call by call *)

Section SuggesterMore.

Variables (self : ProductSuggester.t) (fill : string -> nat -> string).

Local Abbreviation analysis_of category severity symptoms products :=
  ({[ "category" := ProductSuggester.Str category;
      "severity" := ProductSuggester.Str severity;
      "symptoms" := ProductSuggester.List symptoms;
      "potential_products" := ProductSuggester.List products ]}
     : gmap string ProductSuggester.value).

Lemma analyze_user_query_cases user_input t :
  ProductSuggester.analyze_user_query self user_input t
  = match reply (ProductSuggester.model self) t
            (ProductSuggester.analysis_prompt user_input) with
    | Ok text =>
        (ProductSuggester._parse_analysis_response self text,
         t ++ [GenerateContent (ProductSuggester.analysis_prompt user_input)])
    | Raise e =>
        (Ok (analysis_of "unknown" "unknown" [] []),
         t ++ [GenerateContent (ProductSuggester.analysis_prompt user_input);
               Print ("Error analyzing query: " +:+ Py.str_exn e)])
    end.
Proof.
  unfold ProductSuggester.analyze_user_query. cbv zeta. unfold try_except.
  rewrite run_generate_content. destruct (reply _ _ _) as [text|e].
  - rewrite run_bind. unfold lift. by rewrite parse_analysis_response_spec.
  - io_steps. by rewrite <- app_assoc.
Qed.


(** X19.  [analyze_user_query] never raises and always returns a dict with
    exactly the four keys of the analysis.  It calls the model once: when
    the call succeeds the dict is the parse of the reply, and when it
    raises the dict is [unknown], [unknown] and two empty lists, and the
    error is printed. *)
Theorem analyze_user_query_outcomes (user_input : string) (t : list event) :
  let prompt := ProductSuggester.analysis_prompt user_input in
  exists analysis added,
    ProductSuggester.analyze_user_query self user_input t = (Ok analysis, t ++ added)
    /\ dom analysis = {[ "category"; "severity"; "symptoms"; "potential_products" ]}
    /\ prompts_sent added = [prompt]
    /\ match reply (ProductSuggester.model self) t prompt with
       | Ok text =>
           ProductSuggester._parse_analysis_response self text = Ok analysis
           /\ added = [GenerateContent prompt]
       | Raise e =>
           analysis = analysis_of "unknown" "unknown" [] []
           /\ added = [GenerateContent prompt;
                       Print ("Error analyzing query: " +:+ Py.str_exn e)]
       end.
Proof.
  intros prompt. rewrite analyze_user_query_cases. fold prompt.
  destruct (reply _ _ _) as [text|e].
  - rewrite parse_analysis_response_spec. eexists _, _. split; [reflexivity|].
    split; [rewrite !dom_insert_L, dom_singleton_L; set_solver|]. done.
  - eexists _, _. split; [reflexivity|].
    split; [rewrite !dom_insert_L, dom_singleton_L; set_solver|]. done.
Qed.




End SuggesterMore.

Section RecommendationMore.

Variables (self : ProductSuggester.t) (fill : string -> nat -> string).

Local Abbreviation analysis_of category severity symptoms products :=
  ({[ "category" := ProductSuggester.Str category;
      "severity" := ProductSuggester.Str severity;
      "symptoms" := ProductSuggester.List symptoms;
      "potential_products" := ProductSuggester.List products ]}
     : gmap string ProductSuggester.value).

(** The prompt [generate_recommendation] writes for an analysis. *)
Local Abbreviation recommendation_prompt user_input category severity symptoms :=
  (match default [] (ProductSuggester.product_database !! (category : string)) with
   | [] =>
       ProductSuggester.general_prompt user_input (Py.join ", " symptoms) severity
   | relevant =>
       ProductSuggester.products_prompt user_input category (Py.join ", " symptoms)
         severity (ProductSuggester.products_info_loop 1 relevant "")
   end).

Lemma generate_recommendation_cases user_input category severity symptoms products t :
  let prompt := recommendation_prompt user_input category severity symptoms in
  ProductSuggester.generate_recommendation self user_input
    (analysis_of category severity symptoms products) t
  = (Ok match reply (ProductSuggester.model self) t prompt with
        | Ok text => text
        | Raise e =>
            "I apologize, I'm having trouble generating a recommendation right now. Error: "
            +:+ Py.str_exn e
        end,
     t ++ [GenerateContent prompt]).
Proof.
  intros prompt. unfold prompt, ProductSuggester.generate_recommendation.
  subscripts. io_steps. unfold ProductSuggester.database_get. io_steps.
  destruct (default [] (ProductSuggester.product_database !! category))
    as [|product relevant];
    [rewrite bool_decide_eq_true_2 by done|rewrite bool_decide_eq_false_2 by done];
    cbv zeta; subscripts; cbn [mbind outcome_bind mret outcome_ret];
    io_steps; unfold try_except, generate_content;
    by destruct (reply _ _ _).
Qed.

Lemma database_empty category :
  default [] (ProductSuggester.product_database !! category) = []
  <-> category ∉ ["pain_relief"; "cold_flu"; "allergy"; "digestive_health"; "first_aid"].
Proof.
  split.
  - intros Hempty Hin.
    repeat (apply elem_of_cons in Hin as [->|Hin]; [by vm_compute in Hempty|]).
    by apply elem_of_nil in Hin.
  - intros Hnot. unfold ProductSuggester.product_database.
    by rewrite (not_elem_of_list_to_map_1 _ category).
Qed.

(** X21.  [generate_recommendation] on an analysis with its four fields
    never raises and calls the model once.  The prompt is the general
    advice prompt exactly when the category is none of the five categories
    of the store, and otherwise the prompt listing the numbered products of
    the category.  The answer is the model's text, or, when the call
    raises, the apology ending with the text of the exception. *)
Theorem generate_recommendation_outcomes
  (user_input category severity : string) (symptoms products : list string)
  (t : list event) :
  let prompt :=
    match default [] (ProductSuggester.product_database !! category) with
    | [] => ProductSuggester.general_prompt user_input (Py.join ", " symptoms) severity
    | listed =>
        ProductSuggester.products_prompt user_input category (Py.join ", " symptoms)
          severity (ProductSuggester.products_info_loop 1 listed "")
    end in
  (default [] (ProductSuggester.product_database !! category) = []
   <-> category ∉ ["pain_relief"; "cold_flu"; "allergy"; "digestive_health"; "first_aid"])
  /\ ProductSuggester.generate_recommendation self user_input
       (analysis_of category severity symptoms products) t
     = (Ok match reply (ProductSuggester.model self) t prompt with
           | Ok text => text
           | Raise e =>
               "I apologize, I'm having trouble generating a recommendation right now. Error: "
               +:+ Py.str_exn e
           end,
        t ++ [GenerateContent prompt]).
Proof.
  intros prompt. split; [apply database_empty|].
  apply generate_recommendation_cases.
Qed.

Lemma format_recommendation_cases recommendation category severity symptoms products :
  ProductSuggester.format_recommendation fill self recommendation
    (analysis_of category severity symptoms products)
  = Ok ((Py.nl
         +:+ "        🏥 SMART HEALTH STORE RECOMMENDATION" +:+ Py.nl
         +:+ "        " +:+ Py.repeat "=" 50 +:+ Py.nl)
        +:+ "        📋 Category: " +:+ Py.title (Py.replace category "_" " ") +:+ Py.nl
        +:+ "        ⚠️  Severity: " +:+ Py.title severity +:+ Py.nl
        +:+ "        🎯 Symptoms: "
        +:+ match symptoms with
            | [] => "Not specified"
            | _ => Py.join ", " symptoms
            end +:+ Py.nl
        +:+ ("        " +:+ Py.repeat "=" 50 +:+ Py.nl
             +:+ Py.nl
             +:+ "        💡 RECOMMENDATION:" +:+ Py.nl
             +:+ "        ")
        +:+ fill recommendation 70
        +:+ (Py.nl
             +:+ Py.nl
             +:+ "        " +:+ Py.repeat "=" 50 +:+ Py.nl
             +:+ "        ⚠️  IMPORTANT: This is an AI recommendation. Please consult with our " +:+ Py.nl
             +:+ "        pharmacist for personalized advice, especially if symptoms persist " +:+ Py.nl
             +:+ "        or worsen. Always read product labels and follow usage instructions." +:+ Py.nl
             +:+ Py.nl
             +:+ "        🏪 Visit us in-store for more options and professional consultation!" +:+ Py.nl
             +:+ "        ")).
Proof.
  unfold ProductSuggester.format_recommendation.
  subscripts. cbn [mbind outcome_bind mret outcome_ret].
  subscripts. cbn [mbind outcome_bind mret outcome_ret].
  subscripts. cbn [mbind outcome_bind mret outcome_ret ProductSuggester.truthy].
  rewrite !append_assoc.
  destruct symptoms as [|x symptoms'].
  - rewrite bool_decide_eq_true_2 by done. reflexivity.
  - rewrite bool_decide_eq_false_2 by done. cbn [negb]. subscripts.
    cbn [mbind outcome_bind mret outcome_ret ProductSuggester.join_value]. reflexivity.
Qed.



(** X23.  [process_query] never raises, whatever the model, the input and
    [textwrap.fill]: a failed analysis falls back to the default analysis
    and a failed recommendation to the apology text.  It calls the model
    exactly twice, first with the analysis prompt for the input. *)
Theorem process_query_answers (user_input : string) (t : list event) :
  exists formatted added prompt,
    ProductSuggester.process_query fill self user_input t = (Ok formatted, t ++ added)
    /\ prompts_sent added = [ProductSuggester.analysis_prompt user_input; prompt]
    /\ Forall (fun e => is_print e \/ e = Sleep 1 \/ exists p, e = GenerateContent p) added.
Proof.
  unfold ProductSuggester.process_query. io_steps. rewrite run_bind.
  rewrite analyze_user_query_cases.
  destruct (reply _ _ _) as [text|e].
  - rewrite parse_analysis_response_spec. io_steps.
    rewrite run_bind, generate_recommendation_cases. io_steps.
    rewrite format_recommendation_cases. io_steps.
    eexists _, _, _. split; [by rewrite <- !app_assoc|]. split; [reflexivity|].
    apply Forall_forall. intros ev Hev.
    repeat (apply elem_of_cons in Hev as [->|Hev]; [unfold is_print; eauto|]).
    by apply elem_of_nil in Hev.
  - io_steps. rewrite run_bind, generate_recommendation_cases. io_steps.
    rewrite format_recommendation_cases. io_steps.
    eexists _, _, _. split; [by rewrite <- !app_assoc|]. split; [reflexivity|].
    apply Forall_forall. intros ev Hev.
    repeat (apply elem_of_cons in Hev as [->|Hev]; [unfold is_print; eauto|]).
    by apply elem_of_nil in Hev.
Qed.


End RecommendationMore.

(** ** Records, listings and the country loop on a known country *)

Section RecordsMore.

Variables (ct : CountryCapitalTool.t) (lt : CountryLanguageTool.t)
          (pt : CountryPopulationTool.t).

(** X25.  The record a tool returns has one of two shapes, whatever the
    table and the input: status [success] with exactly the keys [status],
    the value field and [country], or status [error] with exactly the keys
    [status] and [message].  So a caller that reads the value field only
    after seeing [success] never meets a missing key. *)
Theorem execute_record_keys (name : string) :
  let shaped (r : gmap string string) (field : string) :=
    (r !! "status" = Some "success" /\ dom r = {[ "status"; field; "country" ]})
    \/ (r !! "status" = Some "error" /\ dom r = {[ "status"; "message" ]}) in
  shaped (CountryCapitalTool.execute ct name) "capital"
  /\ shaped (CountryLanguageTool.execute lt name) "language"
  /\ shaped (CountryPopulationTool.execute pt name) "population".
Proof.
  intros shaped. unfold shaped, CountryCapitalTool.execute, CountryLanguageTool.execute,
    CountryPopulationTool.execute.
  destruct (CountryCapitalTool.country_capitals ct !! _),
    (CountryLanguageTool.country_languages lt !! _),
    (CountryPopulationTool.country_populations pt !! _);
    repeat split;
    first [ left; split; [apply lookup_insert_eq|];
            rewrite !dom_insert_L, dom_singleton_L; reflexivity
          | right; split; [apply lookup_insert_eq|];
            rewrite !dom_insert_L, dom_singleton_L; reflexivity ].
Qed.

Lemma products_info_loop_acc i products acc :
  ProductSuggester.products_info_loop i products acc
  = acc +:+ ProductSuggester.products_info_loop i products "".
Proof.
  revert i acc. induction products as [|product products IH]; intros i acc; simpl.
  - clear. induction acc as [|c acc IH]; [done|]. by rewrite append_String, <- IH.
  - rewrite IH. rewrite (IH _ ("" +:+ _)). by rewrite append_assoc.
Qed.

(** X26.  The listing [generate_recommendation] builds for the products of
    a category is the entries of the products one after the other, in the
    order of the list and numbered from the start index upward, after the
    text built so far. *)
Theorem products_info_numbered (i : nat) (products : list ProductSuggester.product)
  (acc : string) :
  ProductSuggester.products_info_loop i products acc
  = acc +:+ foldr String.append ""
              (imap (fun k product => ProductSuggester.product_entry (i + k) product)
                 products).
Proof.
  revert i acc. induction products as [|product products IH]; intros i acc.
  - simpl. clear. induction acc as [|c acc IH]; [done|]. by rewrite append_String, <- IH.
  - cbn [ProductSuggester.products_info_loop imap foldr].
    rewrite IH, append_assoc, Nat.add_0_r. do 2 f_equal.
    apply (f_equal (foldr String.append "")), imap_ext.
    intros k x _. cbn. by rewrite Nat.add_succ_r.
Qed.

End RecordsMore.

Section CountryLoopMore.

Variable bot : CountryInfoBot.t.

(** X27.  Typing a name that validation accepts makes the country bot run
    the three notices and one call to the model, print the report between
    a blank line and an indented closing line, then the rule and the
    question, and go on.  The report is the model's text, or the fallback
    report when the call raises. *)
Theorem country_loop_answers (line : string) (t : list event) :
  let user_input := Py.strip line in
  let self := CountryInfoBot.orchestrator bot in
  let before_call :=
    t ++ [Input "🇺🇳 Which country would you like to know about? ";
          Print ("🔍 Validating country: " +:+ user_input +:+ "..."); Sleep 1;
          Print "🔄 Executing all information tools..."; Sleep 1;
          Print "📊 Generating comprehensive report..."; Sleep 1] in
  exit_word ["quit"; "exit"; "bye"; "stop"] line = false ->
  user_input <> "" ->
  CountryInfoOrchestrator.is_valid
    (CountryInfoOrchestrator.validate_country self user_input) = true ->
  exists results prompt report,
    CountryInfoOrchestrator.execute_all_tools self user_input = Ok results
    /\ CountryInfoOrchestrator.report_prompt results = Ok prompt
    /\ match reply (CountryInfoOrchestrator.model self) before_call prompt with
       | Ok text => report = text
       | Raise _ => CountryInfoOrchestrator._create_fallback_report self results = Ok report
       end
    /\ CountryInfoBot.loop_body bot line t
       = (Ok Continue,
          before_call
          ++ [GenerateContent prompt;
              Print (Py.nl +:+ Py.nl +:+ "        " +:+ report +:+ Py.nl +:+ "        ");
              Print (Py.nl +:+ Py.repeat "=" 60);
              Print "Would you like to know about another country?"]).
Proof.
  intros user_input self before_call Hexit Hinput Hvalid.
  unfold exit_word in Hexit. fold user_input in Hexit.
  destruct (process_valid self user_input
              (t ++ [Input "🇺🇳 Which country would you like to know about? "]) Hvalid)
    as (results & prompt & Htools & Hprompt & Hrun).
  pose proof (create_fallback_report_spec self _ _ Htools) as Hfallback.
  rewrite <- !app_assoc in Hrun. cbn [app] in Hrun. fold before_call in Hrun.
  match type of Hrun with
  | _ = (Ok (CountryInfoOrchestrator.QuerySuccess _ _ ?report _), _) =>
      exists results, prompt, report
  end.
  split; [exact Htools|]. split; [exact Hprompt|]. split.
  - destruct (reply _ _ _) as [text|e]; [reflexivity|exact Hfallback].
  - unfold CountryInfoBot.loop_body, try_except. io_steps. cbv zeta.
    fold user_input self. rewrite Hexit, (eqb_empty_false _ Hinput), run_bind, Hrun.
    io_steps. unfold before_call. rewrite <- !app_assoc.
    cbn [app CountryInfoBot.format_output]. reflexivity.
Qed.

End CountryLoopMore.

(** ** Runs of the further properties *)







Lemma country_loop_answers_witness :
  exists results prompt report,
    CountryInfoOrchestrator._create_fallback_report
      (CountryInfoOrchestrator.init offline) results = Ok report
    /\ CountryInfoBot.loop_body (CountryInfoBot.init offline) "Japan" []
       = (Ok Continue,
          ([] ++ [Input "🇺🇳 Which country would you like to know about? ";
                  Print "🔍 Validating country: Japan..."; Sleep 1;
                  Print "🔄 Executing all information tools..."; Sleep 1;
                  Print "📊 Generating comprehensive report..."; Sleep 1])
          ++ [GenerateContent prompt;
              Print (Py.nl +:+ Py.nl +:+ "        " +:+ report +:+ Py.nl +:+ "        ");
              Print (Py.nl +:+ Py.repeat "=" 60);
              Print "Would you like to know about another country?"]).
Proof.
  destruct (country_loop_answers (CountryInfoBot.init offline) "Japan" [])
    as (results & prompt & report & _ & _ & Hreport & Hloop).
  - reflexivity.
  - discriminate.
  - vm_compute. reflexivity.
  - exists results, prompt, report. split; [exact Hreport | exact Hloop].
Defined.
